(** * ChessGame: a shallow embedding of [src/ChessGame.js]

    The component is a React function component over the [chess.js] rules
    engine.  The development below follows the source file top to bottom:

    - the pure kernels (the reducers of [makeBotMove] and [suggestMove], the
      material scorer of [calculateWinProbability], the row builder of
      [updateMoveHistory]);
    - the rules engine, taken as an interface ([RulesEngine]), and the
      [Chess] instances the component holds and mutates;
    - the component state, its event handlers and the event loop;
    - the properties of the handlers. *)

From Stdlib Require Import ZArith List String Ascii Bool Lia.
From Stdlib Require Import Permutation.
From Stdlib Require Import DecimalString.
From Stdlib Require Import Floats.PrimFloat Numbers.Cyclic.Int63.Uint63.
Import ListNotations.

Local Open Scope string_scope.
Local Open Scope list_scope.

(** ** JavaScript values used by the component *)

Module JS.

(** [s.includes(c)] for a one-character needle [c]. *)
Fixpoint includes (s : string) (c : ascii) : bool :=
  match s with
  | EmptyString => false
  | String a rest => Ascii.eqb a c || includes rest c
  end.

(** Truthiness of a string-or-null value: [null] and the empty string
    are falsy. *)
Definition truthy (v : option string) : bool :=
  match v with
  | None => false
  | Some s => negb (String.eqb s "")
  end.

(** [v === s] for a string-or-null [v] and a string [s]. *)
Definition strictEq (v : option string) (s : string) : bool :=
  match v with
  | None => false
  | Some s' => String.eqb s' s
  end.

(** Interpolation of a non-negative integer in a template literal. *)
Definition numberToString (n : nat) : string :=
  NilEmpty.string_of_uint (Nat.to_uint n).

(** Interpolation of a possibly [undefined] string in a template
    literal. *)
Definition interpolate (v : option string) : string :=
  match v with
  | None => "undefined"
  | Some s => s
  end.

(** [a.slice(0, -1)]: all but the last element; empty on the empty
    array. *)
Definition sliceButLast {A : Type} (a : list A) : list A := removelast a.

(** [a[a.length - 1]]: [undefined] on the empty array. *)
Fixpoint lastElement {A : Type} (a : list A) : option A :=
  match a with
  | [] => None
  | [x] => Some x
  | _ :: rest => lastElement rest
  end.

(** A JavaScript number is an IEEE 754 binary64 value. *)
Definition number : Type := float.

Definition two52 : number := 4503599627370496%float.

(** Nearest integer below, for [|x| < 2^52]: adding and removing [2^52]
    rounds to an integer, which is then adjusted downwards. *)
Definition floorSmall (x : number) : number :=
  let r := if PrimFloat.leb 0%float x
           then PrimFloat.sub (PrimFloat.add x two52) two52
           else PrimFloat.add (PrimFloat.sub x two52) two52 in
  if PrimFloat.leb r x then r else PrimFloat.sub r 1%float.

(** [Math.round]: the closest integer, ties towards positive infinity;
    [NaN], infinities and values of magnitude at least [2^52] (already
    integers) are returned as they are.  The sign of a zero result is
    not tracked. *)
Definition Math_round (x : number) : number :=
  if PrimFloat.is_nan x then x
  else if PrimFloat.ltb (PrimFloat.abs x) two52 then
    let f := floorSmall x in
    if PrimFloat.ltb (PrimFloat.sub x f) 0.5%float then f
    else PrimFloat.add f 1%float
  else x.

(** A small non-negative integer as a number (exact below [2^53]). *)
Definition ofZ (z : Z) : number := PrimFloat.of_uint63 (Uint63.of_Z z).

End JS.

(** ** Moves and pieces, as the rules engine returns them *)

(** A verbose move object: the fields the component reads. *)
Record Move : Type := mkMove {
  from : string;
  to : string;
  flags : string;
  san : string
}.

(** [piece.color]: ['w'] or ['b']. *)
Inductive Color : Type := White | Black.

(** [piece.type]: ['p'], ['n'], ['b'], ['r'], ['q'], ['k']. *)
Inductive PieceType : Type := Pawn | Knight | Bishop | Rook | Queen | King.

Record Piece : Type := mkPiece {
  color : Color;
  type : PieceType
}.

Definition Color_eqb (c1 c2 : Color) : bool :=
  match c1, c2 with
  | White, White | Black, Black => true
  | _, _ => false
  end.

(** The labels of the four difficulty buttons; [botDifficulty] is an index
    into this array. *)
Definition difficultyLevels : list string :=
  ["Beginner"; "Intermediate"; "Advanced"; "Grand Master"].

(** The square [renderSquare(i)] draws, for a cell index [i] below 64:
    the file letter ['abcdefgh'[i % 8]] followed by the rank
    [8 - Math.floor(i / 8)]. *)
Definition squareName (i : nat) : string :=
  let file := String.get (i mod 8) "abcdefgh" in
  let rank := 8 - i / 8 in
  JS.interpolate (option_map (fun c => String c "") file)
  ++ JS.numberToString rank.

(** ** The reducers of [makeBotMove] and [suggestMove] *)

(** The accumulator [{ move, score }] of the scoring reducers. *)
Record Scored : Type := mkScored {
  move : Move;
  score : Z
}.

(** The reducer of the Advanced tier (case 2):
    [(best, current) => (c || e) ? current : best].  The accumulator may be
    [undefined] when the seed index is out of range. *)
Definition advancedStep (best : option Move) (current : Move) : option Move :=
  if JS.includes (flags current) "c" || JS.includes (flags current) "e"
  then Some current
  else best.

(** The reducer of the Grand Master tier (case 3). *)
Definition grandMasterStep (best : Scored) (current : Move) : Scored :=
  let score' :=
    if JS.includes (flags current) "c" || JS.includes (flags current) "e" then 2%Z
    else if JS.includes (flags current) "p" || JS.includes (flags current) "k" then 1%Z
    else 0%Z in
  if (score' >? score best)%Z
  then {| move := current; score := score' |}
  else best.

(** The reducer of [suggestMove]. *)
Definition suggestStep (best : Scored) (current : Move) : Scored :=
  let score' :=
    if JS.includes (flags current) "c" || JS.includes (flags current) "e" then 2%Z
    else if JS.includes (flags current) "p" || JS.includes (flags current) "k" then 1%Z
    else 0%Z in
  if (score' >? score best)%Z
  then {| move := current; score := score' |}
  else best.

(** The [switch (botDifficulty)] of [makeBotMove], entered only when
    [moves.length > 0].  [rnd] is the value of
    [Math.floor(Math.random() * moves.length)]; the result is [None] where
    the JavaScript value would be [undefined]. *)
Definition chooseBotMove (botDifficulty : nat) (rnd : nat) (moves : list Move)
  : option Move :=
  match moves with
  | [] => None
  | first :: _ =>
      match botDifficulty with
      | 1 => nth_error moves rnd
      | 2 => fold_left advancedStep moves (nth_error moves rnd)
      | 3 => Some (move (fold_left grandMasterStep moves
                                   {| move := first; score := (-1)%Z |}))
      | _ => nth_error moves rnd
      end
  end.

(** The value [suggestMove] passes to [setSuggestedMove]; [first] is
    [moves[0]], read only when [moves.length > 0]. *)
Definition suggestedOf (moves : list Move) (first : Move) : Move :=
  move (fold_left suggestStep moves {| move := first; score := (-1)%Z |}).

(** The scoring rule in words: 2 for a capture or en-passant flag, else 1
    for a promotion or king-side flag, else 0. *)
Definition isCapture (m : Move) : bool :=
  JS.includes (flags m) "c" || JS.includes (flags m) "e".

Definition isSpecial (m : Move) : bool :=
  JS.includes (flags m) "p" || JS.includes (flags m) "k".

Definition moveScore (m : Move) : Z :=
  if isCapture m then 2%Z else if isSpecial m then 1%Z else 0%Z.

(** What a scan with strict replacement leaves in the accumulator: either
    the seed, when no move beats it, or the earliest move of the highest
    score. *)
Inductive ScanResult (moves : list Move) (seed : Scored) (r : Scored) : Prop :=
| scan_seed :
    r = seed ->
    (forall m, In m moves -> (moveScore m <= score seed)%Z) ->
    ScanResult moves seed r
| scan_move before after :
    moves = before ++ move r :: after ->
    score r = moveScore (move r) ->
    (score seed < score r)%Z ->
    (forall m, In m before -> (moveScore m < score r)%Z) ->
    (forall m, In m after -> (moveScore m <= score r)%Z) ->
    ScanResult moves seed r.

(** ** The material scorer of [calculateWinProbability] *)

(** The table [pieceValues]. *)
Definition pieceValues (t : PieceType) : Z :=
  match t with
  | Pawn => 1
  | Knight => 3
  | Bishop => 3
  | Rook => 5
  | Queen => 9
  | King => 0
  end%Z.

(** [game.board()]: eight rows of eight cells, a cell is [null] or a
    piece. *)
Definition Board : Type := list (list (option Piece)).

(** The body of the inner [forEach]; the accumulator is
    [(whiteScore, blackScore)].  The scores are sums of at most 64 table
    entries, so they are exact as JavaScript numbers and kept in [Z]. *)
Definition countPiece (scores : Z * Z) (cell : option Piece) : Z * Z :=
  match cell with
  | Some piece =>
      if Color_eqb (color piece) White
      then (fst scores + pieceValues (type piece), snd scores)%Z
      else (fst scores, snd scores + pieceValues (type piece))%Z
  | None => scores
  end.

Definition materialScores (board : Board) : Z * Z :=
  fold_left (fun scores row => fold_left countPiece row scores) board (0, 0)%Z.

(** The state value [{ white, black }]. *)
Record WinProbability : Type := mkWinProbability {
  white : JS.number;
  black : JS.number
}.

(** The two probabilities computed from the scores:
    [Math.round((whiteScore / totalScore) * 100)] and its complement. *)
Definition probabilities (whiteScore blackScore : Z) : WinProbability :=
  let totalScore := (whiteScore + blackScore)%Z in
  let whiteProbability :=
    JS.Math_round
      (PrimFloat.mul (PrimFloat.div (JS.ofZ whiteScore) (JS.ofZ totalScore))
                     100%float) in
  {| white := whiteProbability;
     black := PrimFloat.sub 100%float whiteProbability |}.

(** ** The row builder of [updateMoveHistory] *)

(** The second argument of [updateMoveHistory]: ['player'] or ['bot']. *)
Inductive Mover : Type := ByPlayer | ByBot.

(** The function passed to [setMoveHistory]. *)
Definition historyAfter (mv : Move) (player : Mover) (prevHistory : list string)
  : list string :=
  let moveNumber := Nat.div (List.length prevHistory) 2 + 1 in
  match player with
  | ByPlayer =>
      prevHistory ++ [(JS.numberToString moveNumber ++ ". " ++ san mv)%string]
  | ByBot =>
      let lastMove := JS.lastElement prevHistory in
      JS.sliceButLast prevHistory
        ++ [(JS.interpolate lastMove ++ " " ++ san mv)%string]
  end.

(** The history after a run of complete turns, each a player's move
    followed by the bot's reply. *)
Definition afterTurns (turns : list (Move * Move)) (history0 : list string)
  : list string :=
  fold_left
    (fun h turn => historyAfter (snd turn) ByBot (historyAfter (fst turn) ByPlayer h))
    turns history0.

(** ** The rules engine

    [chess.js] is not part of the repository; the component uses it through
    the calls below.  A position is what [fen()] serialises and
    [new Chess(fen)] restores.  The library keeps, next to the position, a
    stack of the moves made on that instance, which [undo()] pops. *)

(** The result of asking the engine for a move. *)
Inductive Outcome (P : Type) : Type :=
| Accepted (mv : Move) (next : P)
| Rejected
| Raised.

Arguments Accepted {P} mv next.
Arguments Rejected {P}.
Arguments Raised {P}.

(** A [Chess] instance: the current position and the undo stack, each
    entry holding the move made and the position it was made from. *)
Record Chess (P : Type) : Type := mkChess {
  position : P;
  history : list (Move * P)
}.

Arguments mkChess {P} position history.
Arguments position {P} c.
Arguments history {P} c.

Class RulesEngine : Type := {
  Position : Type;
  (** the position of [new Chess()] *)
  startPosition : Position;
  (** [game.moves({ verbose: true })] *)
  legalMoves : Position -> list Move;
  (** [game.move({ from, to, promotion: 'q' })] *)
  requestMove : Position -> string -> string -> Outcome Position;
  (** [game.move(move)] for a verbose move object *)
  replayMove : Position -> Move -> Outcome Position;
  (** [game.get(square)] *)
  pieceAt : Position -> string -> option Piece;
  (** [game.turn()] *)
  sideToMove : Position -> Color;
  (** [game.board()] *)
  boardOf : Position -> Board;
  (** the terminal-state predicates *)
  isCheckmate : Chess Position -> bool;
  isDraw : Chess Position -> bool;
  isStalemate : Chess Position -> bool;
  isThreefoldRepetition : Chess Position -> bool;
  isInsufficientMaterial : Chess Position -> bool
}.

(** What a call of [game.move] hands back to the component. *)
Inductive MoveResult : Type :=
| Returned (mv : Move)
| ReturnedNull
| Threw.

Section Component.

Context {engine : RulesEngine}.

Definition Game : Type := Chess Position.

(** [new Chess()] *)
Definition newChess : Game :=
  {| position := startPosition; history := [] |}.

(** [new Chess(game.fen())]: the same position on a new instance, whose
    undo stack is empty. *)
Definition reload (g : Game) : Game :=
  {| position := position g; history := [] |}.

(** [game.move({ from, to, promotion: 'q' })]: the result and the
    instance after the call.  A refused request leaves the instance as it
    was. *)
Definition gameMove (g : Game) (from' to' : string) : MoveResult * Game :=
  match requestMove (position g) from' to' with
  | Accepted mv next =>
      (Returned mv,
       {| position := next; history := (mv, position g) :: history g |})
  | Rejected => (ReturnedNull, g)
  | Raised => (Threw, g)
  end.

(** [game.move(move)] *)
Definition gameMoveObject (g : Game) (chosen : Move) : MoveResult * Game :=
  match replayMove (position g) chosen with
  | Accepted mv next =>
      (Returned mv,
       {| position := next; history := (mv, position g) :: history g |})
  | Rejected => (ReturnedNull, g)
  | Raised => (Threw, g)
  end.

(** [game.undo()]: [null] on an empty stack. *)
Definition gameUndo (g : Game) : option Move * Game :=
  match history g with
  | [] => (None, g)
  | (mv, previous) :: older =>
      (Some mv, {| position := previous; history := older |})
  end.

(** ** The component state *)

(** The callback [() => makeBotMove()] handed to [setTimeout]: it closes
    over the [game] instance and the [botDifficulty] of the render that
    scheduled it. *)
Record BotTimer : Type := mkBotTimer {
  closedGame : Game;
  closedDifficulty : nat
}.

(** The ten [useState] cells, the pending timers, and whether a [setGame]
    is waiting for the [[game]] effect. *)
Record State : Type := mkState {
  game : Game;
  selectedSquare : option string;
  suggestedMove : option Move;
  botDifficulty : nat;
  errorMessage : string;
  winProbability : WinProbability;
  pointDifference : Z;
  darkMode : bool;
  moveHistory : list string;
  gameStatus : string;
  timers : list BotTimer;
  gameChanged : bool
}.

Definition setGame (g : Game) (st : State) : State :=
  mkState g (selectedSquare st) (suggestedMove st) (botDifficulty st)
          (errorMessage st) (winProbability st) (pointDifference st)
          (darkMode st) (moveHistory st) (gameStatus st) (timers st) true.

Definition setSelectedSquare (sq : option string) (st : State) : State :=
  mkState (game st) sq (suggestedMove st) (botDifficulty st)
          (errorMessage st) (winProbability st) (pointDifference st)
          (darkMode st) (moveHistory st) (gameStatus st) (timers st)
          (gameChanged st).

Definition setSuggestedMove (mv : option Move) (st : State) : State :=
  mkState (game st) (selectedSquare st) mv (botDifficulty st)
          (errorMessage st) (winProbability st) (pointDifference st)
          (darkMode st) (moveHistory st) (gameStatus st) (timers st)
          (gameChanged st).

Definition setBotDifficulty (level : nat) (st : State) : State :=
  mkState (game st) (selectedSquare st) (suggestedMove st) level
          (errorMessage st) (winProbability st) (pointDifference st)
          (darkMode st) (moveHistory st) (gameStatus st) (timers st)
          (gameChanged st).

Definition setErrorMessage (msg : string) (st : State) : State :=
  mkState (game st) (selectedSquare st) (suggestedMove st) (botDifficulty st)
          msg (winProbability st) (pointDifference st)
          (darkMode st) (moveHistory st) (gameStatus st) (timers st)
          (gameChanged st).

Definition setWinProbability (wp : WinProbability) (st : State) : State :=
  mkState (game st) (selectedSquare st) (suggestedMove st) (botDifficulty st)
          (errorMessage st) wp (pointDifference st)
          (darkMode st) (moveHistory st) (gameStatus st) (timers st)
          (gameChanged st).

Definition setPointDifference (d : Z) (st : State) : State :=
  mkState (game st) (selectedSquare st) (suggestedMove st) (botDifficulty st)
          (errorMessage st) (winProbability st) d
          (darkMode st) (moveHistory st) (gameStatus st) (timers st)
          (gameChanged st).

Definition setDarkMode (dark : bool) (st : State) : State :=
  mkState (game st) (selectedSquare st) (suggestedMove st) (botDifficulty st)
          (errorMessage st) (winProbability st) (pointDifference st)
          dark (moveHistory st) (gameStatus st) (timers st)
          (gameChanged st).

(** [setMoveHistory(f)] with an updater function. *)
Definition setMoveHistory (f : list string -> list string) (st : State)
  : State :=
  mkState (game st) (selectedSquare st) (suggestedMove st) (botDifficulty st)
          (errorMessage st) (winProbability st) (pointDifference st)
          (darkMode st) (f (moveHistory st)) (gameStatus st) (timers st)
          (gameChanged st).

Definition setGameStatus (status : string) (st : State) : State :=
  mkState (game st) (selectedSquare st) (suggestedMove st) (botDifficulty st)
          (errorMessage st) (winProbability st) (pointDifference st)
          (darkMode st) (moveHistory st) status (timers st)
          (gameChanged st).

(** [setTimeout(callback, 300)]: the callback joins the pending timers. *)
Definition setTimeout (callback : BotTimer) (st : State) : State :=
  mkState (game st) (selectedSquare st) (suggestedMove st) (botDifficulty st)
          (errorMessage st) (winProbability st) (pointDifference st)
          (darkMode st) (moveHistory st) (gameStatus st)
          (timers st ++ [callback]) (gameChanged st).

Definition withTimers (pending : list BotTimer) (st : State) : State :=
  mkState (game st) (selectedSquare st) (suggestedMove st) (botDifficulty st)
          (errorMessage st) (winProbability st) (pointDifference st)
          (darkMode st) (moveHistory st) (gameStatus st) pending
          (gameChanged st).

Definition effectDone (st : State) : State :=
  mkState (game st) (selectedSquare st) (suggestedMove st) (botDifficulty st)
          (errorMessage st) (winProbability st) (pointDifference st)
          (darkMode st) (moveHistory st) (gameStatus st) (timers st) false.

(** Statements of a handler, in source order. *)
Notation "st |> f" := (f st) (at level 45, left associativity, only parsing).

(** ** The handlers *)

Definition updateMoveHistory (mv : Move) (player : Mover) (st : State)
  : State :=
  setMoveHistory (historyAfter mv player) st.

Definition makeMove (from' to' : string) (st : State) : State :=
  match gameMove (game st) from' to' with
  | (Returned mv, mutated) =>
      st |> setGame (reload mutated)
         |> setSelectedSquare None
         |> setErrorMessage ""
         |> updateMoveHistory mv ByPlayer
         |> setTimeout {| closedGame := mutated;
                          closedDifficulty := botDifficulty st |}
  | (ReturnedNull, _) =>
      st |> setErrorMessage "Invalid move"
         |> setSelectedSquare None
  | (Threw, _) =>
      st |> setErrorMessage "Invalid move"
         |> setSelectedSquare None
  end.

Definition handleSquareClick (square : string) (st : State) : State :=
  let piece := pieceAt (position (game st)) square in
  if JS.strictEq (selectedSquare st) square then
    st |> setSelectedSquare None
  else
    let otherwise :=
      match piece with
      | Some found =>
          if Color_eqb (color found) (sideToMove (position (game st)))
          then st |> setSelectedSquare (Some square)
          else st |> setErrorMessage "Select a valid piece"
      | None => st |> setErrorMessage "Select a valid piece"
      end in
    match selectedSquare st with
    | Some selected =>
        if JS.truthy (Some selected) then makeMove selected square st
        else otherwise
    | None => otherwise
    end.

(** [makeBotMove], run by a timer: [game] and [botDifficulty] are those the
    callback closed over, the state setters act on the current state.
    An exception leaves the callback before any setter is called. *)
Definition makeBotMove (callback : BotTimer) (rnd : nat) (st : State)
  : State :=
  let moves := legalMoves (position (closedGame callback)) in
  match moves with
  | [] => st
  | _ :: _ =>
      match chooseBotMove (closedDifficulty callback) rnd moves with
      | None => st
      | Some chosen =>
          match gameMoveObject (closedGame callback) chosen with
          | (Threw, _) => st
          | (_, mutated) =>
              st |> setGame (reload mutated)
                 |> updateMoveHistory chosen ByBot
          end
      end
  end.

Definition suggestMove (st : State) : State :=
  let moves := legalMoves (position (game st)) in
  match moves with
  | [] => st
  | first :: _ => st |> setSuggestedMove (Some (suggestedOf moves first))
  end.

Definition calculateWinProbability (st : State) : State :=
  let scores := materialScores (boardOf (position (game st))) in
  let whiteScore := fst scores in
  let blackScore := snd scores in
  st |> setWinProbability (probabilities whiteScore blackScore)
     |> setPointDifference (whiteScore - blackScore)%Z.

Definition checkGameStatus (st : State) : State :=
  if isCheckmate (game st) then
    st |> setGameStatus
            ("Checkmate! "
             ++ (if Color_eqb (sideToMove (position (game st))) White
                 then "Black" else "White")
             ++ " wins!")
  else if isDraw (game st) then st |> setGameStatus "Draw!"
  else if isStalemate (game st) then st |> setGameStatus "Stalemate!"
  else if isThreefoldRepetition (game st) then
    st |> setGameStatus "Draw by threefold repetition!"
  else if isInsufficientMaterial (game st) then
    st |> setGameStatus "Draw by insufficient material!"
  else st |> setGameStatus "".

Definition toggleDarkMode (st : State) : State :=
  st |> setDarkMode (negb (darkMode st)).

Definition resetGame (st : State) : State :=
  st |> setGame newChess
     |> setSelectedSquare None
     |> setMoveHistory (fun _ => [])
     |> setGameStatus ""
     |> setErrorMessage "".

Definition undoMove (st : State) : State :=
  match gameUndo (game st) with
  | (Some undoneMove, once) =>
      let twice := snd (gameUndo once) in
      st |> setGame (reload twice)
         |> setMoveHistory JS.sliceButLast
  | (None, _) => st
  end.

(** ** The event loop *)

(** The body of [useEffect(..., [game])]. *)
Definition gameEffect (st : State) : State :=
  st |> suggestMove |> calculateWinProbability |> checkGameStatus.

(** After a handler has run, the component renders; the effect runs when
    [game] was replaced. *)
Definition render (st : State) : State :=
  if gameChanged st then gameEffect (effectDone st) else st.

(** The initial values of the [useState] cells; the effect runs after the
    first render. *)
Definition mounted : State :=
  {| game := newChess;
     selectedSquare := None;
     suggestedMove := None;
     botDifficulty := 0;
     errorMessage := "";
     winProbability := {| white := 50%float; black := 50%float |};
     pointDifference := 0%Z;
     darkMode := false;
     moveHistory := [];
     gameStatus := "";
     timers := [];
     gameChanged := true |}.

Definition initial : State := render mounted.

(** What can happen to a mounted component: a click on one of the 64
    cells, on one of the four difficulty buttons or on another button, or
    the oldest pending timer firing (with the value its random draw
    takes). *)
Inductive Event : Type :=
| SquareClick (cell : nat)
| TimerFires (rnd : nat)
| ResetClick
| UndoClick
| DifficultyClick (level : nat)
| DarkModeClick.

Definition dispatch (ev : Event) (st : State) : State :=
  match ev with
  | SquareClick cell =>
      if (cell <? 64)%nat then handleSquareClick (squareName cell) st else st
  | TimerFires rnd =>
      match timers st with
      | [] => st
      | callback :: pending => makeBotMove callback rnd (withTimers pending st)
      end
  | ResetClick => resetGame st
  | UndoClick => undoMove st
  | DifficultyClick level =>
      if (level <? List.length difficultyLevels)%nat
      then setBotDifficulty level st
      else st
  | DarkModeClick => toggleDarkMode st
  end.

Definition step (ev : Event) (st : State) : State :=
  render (dispatch ev st).

Definition run (evs : list Event) (st : State) : State :=
  fold_left (fun s ev => step ev s) evs st.

(** The states a session can be in. *)
Inductive reachable : State -> Prop :=
| reach_initial : reachable initial
| reach_step ev st : reachable st -> reachable (step ev st).


End Component.

(** ** Two small engines to run the component on

    [scriptedEngine] knows one line of play, the fool's mate
    1. f3 e5 2. g4 Qh4#, with 1. e4 offered as an alternative first move; a
    position is the number of plies played.  Piece placement is not
    tracked: the line has no capture, so the board is reported as the
    starting array.  [bareKingsEngine] is stuck in a position where only
    the two kings are left. *)

Module Script.

Definition f3 : Move := mkMove "f2" "f3" "n" "f3".
Definition e4 : Move := mkMove "e2" "e4" "b" "e4".
Definition e5 : Move := mkMove "e7" "e5" "b" "e5".
Definition g4 : Move := mkMove "g2" "g4" "b" "g4".
Definition Qh4 : Move := mkMove "d8" "h4" "n" "Qh4#".

(** Moves of other kinds, for the reducers: two captures, a quiet move,
    castling, a promotion and an en-passant capture. *)
Definition exd5 : Move := mkMove "e4" "d5" "c" "exd5".
Definition Nxe5 : Move := mkMove "f3" "e5" "c" "Nxe5".
Definition Nf3 : Move := mkMove "g1" "f3" "n" "Nf3".
Definition castles : Move := mkMove "e1" "g1" "k" "O-O".
Definition promotes : Move := mkMove "a7" "a8" "np" "a8=Q".
Definition exd6 : Move := mkMove "e5" "d6" "e" "exd6".

(** The cell that shows a square; 64 when the name is not a square. *)
Definition cell (name : string) : nat :=
  match find (fun i => String.eqb (squareName i) name) (seq 0 64) with
  | Some i => i
  | None => 64
  end.

Definition movesAt (ply : nat) : list Move :=
  match ply with
  | 0 => [f3; e4]
  | 1 => [e5]
  | 2 => [g4]
  | 3 => [Qh4]
  | _ => []
  end.

Definition turnAt (ply : nat) : Color :=
  if Nat.even ply then White else Black.

Definition request (ply : nat) (from' to' : string) : Outcome nat :=
  match find (fun mv => String.eqb (from mv) from' && String.eqb (to mv) to')
             (movesAt ply) with
  | Some mv => Accepted mv (S ply)
  | None => Rejected
  end.

Definition piece (ply : nat) (square : string) : option Piece :=
  match find (fun mv => String.eqb (from mv) square) (movesAt ply) with
  | Some mv =>
      Some {| color := turnAt ply;
              type := if String.eqb (from mv) "d8" then Queen else Pawn |}
  | None => None
  end.

Definition backRank (c : Color) : list (option Piece) :=
  map (fun t => Some {| color := c; type := t |})
      [Rook; Knight; Bishop; Queen; King; Bishop; Knight; Rook].

Definition pawnRank (c : Color) : list (option Piece) :=
  repeat (Some {| color := c; type := Pawn |}) 8.

Definition emptyRank : list (option Piece) := repeat None 8.

Definition startingArray : Board :=
  [backRank Black; pawnRank Black; emptyRank; emptyRank;
   emptyRank; emptyRank; pawnRank White; backRank White].

Definition kingsOnly : Board :=
  [[None; None; None; None; Some (mkPiece Black King); None; None; None];
   emptyRank; emptyRank; emptyRank; emptyRank; emptyRank; emptyRank;
   [None; None; None; None; Some (mkPiece White King); None; None; None]].

End Script.

Definition scriptedEngine : RulesEngine :=
  {| Position := nat;
     startPosition := 0;
     legalMoves := Script.movesAt;
     requestMove := Script.request;
     replayMove := fun ply mv => Script.request ply (from mv) (to mv);
     pieceAt := Script.piece;
     sideToMove := Script.turnAt;
     boardOf := fun _ => Script.startingArray;
     isCheckmate := fun g => Nat.eqb (position g) 4;
     isDraw := fun _ => false;
     isStalemate := fun _ => false;
     isThreefoldRepetition := fun _ => false;
     isInsufficientMaterial := fun _ => false |}.

Definition bareKingsEngine : RulesEngine :=
  {| Position := unit;
     startPosition := tt;
     legalMoves := fun _ => [];
     requestMove := fun _ _ _ => Rejected;
     replayMove := fun _ _ => Rejected;
     pieceAt := fun _ _ => None;
     sideToMove := fun _ => White;
     boardOf := fun _ => Script.kingsOnly;
     isCheckmate := fun _ => false;
     isDraw := fun _ => true;
     isStalemate := fun _ => false;
     isThreefoldRepetition := fun _ => false;
     isInsufficientMaterial := fun _ => true |}.

(** The fool's mate as a session: the player's clicks and the bot's two
    replies. *)
Definition foolsMate : list Event :=
  [SquareClick (Script.cell "f2"); SquareClick (Script.cell "f3"); TimerFires 0;
   SquareClick (Script.cell "g2"); SquareClick (Script.cell "g4"); TimerFires 0].


(** The states the properties are run on. *)
Definition scriptedStart : @State scriptedEngine := @initial scriptedEngine.

Definition e2Selected : @State scriptedEngine :=
  @run scriptedEngine [SquareClick (Script.cell "e2")] scriptedStart.

Definition afterFoolsMate : @State scriptedEngine :=
  @run scriptedEngine foolsMate scriptedStart.

Definition bareKings : @State bareKingsEngine := @initial bareKingsEngine.

(** ** Rendering

    The parts of the returned JSX that compute something: the cells of
    [renderSquare], the rows of the move history and the labels. *)

(** The rank of cell [i] in the earlier revision of the component:
    [Math.floor((63 - i) / 8) + 1]. *)
Definition rankEarlier (i : nat) : nat := (63 - i) / 8 + 1.

(** The rank of cell [i] in [renderSquare]: [8 - Math.floor(i / 8)]. *)
Definition rankOf (i : nat) : nat := 8 - i / 8.

(** The background test of a cell: [(i + Math.floor(i / 8)) % 2 === 0]
    gives the grey class, otherwise the white one. *)
Definition shaded (i : nat) : bool := ((i + i / 8) mod 2 =? 0)%nat.

(** [getPieceSymbol]: the glyph of [symbols[piece.type]]; the colour of a
    piece is given by the style of the cell, not by the glyph. *)
Definition getPieceSymbol (piece : Piece) : string :=
  match type piece with
  | Pawn => "♟"
  | Rook => "♜"
  | Knight => "♞"
  | Bishop => "♝"
  | Queen => "♛"
  | King => "♚"
  end.

(** What [renderSquare(i)] computes for a cell. *)
Record SquareView : Type := mkSquareView {
  square : string;
  grey : bool;
  isSelected : bool;
  isLegal : bool;
  isSuggested : bool;
  glyph : option string;
  rankLabel : option nat;
  fileLabel : option string
}.

Section Rendering.

Context {engine : RulesEngine}.

(** [game.moves({ square, verbose: true })]: the legal moves the engine
    lists for one origin square. *)
Variable movesFrom : Position -> string -> list Move.

Definition renderSquare (st : State) (i : nat) : SquareView :=
  let file := String.get (i mod 8) "abcdefgh" in
  let rank := rankOf i in
  let square := squareName i in
  let piece := pieceAt (position (game st)) square in
  {| square := square;
     grey := shaded i;
     isSelected := JS.strictEq (selectedSquare st) square;
     isLegal :=
       match selectedSquare st with
       | Some selected =>
           JS.truthy (Some selected)
           && existsb (fun mv => String.eqb (to mv) square)
                      (movesFrom (position (game st)) selected)
       | None => false
       end;
     isSuggested :=
       match suggestedMove st with
       | Some suggested =>
           String.eqb (from suggested) square || String.eqb (to suggested) square
       | None => false
       end;
     glyph := option_map getPieceSymbol piece;
     rankLabel := if (i mod 8 =? 0)%nat then Some rank else None;
     fileLabel :=
       if (56 <=? i)%nat
       then Some (JS.interpolate (option_map (fun c => String c "") file))
       else None |}.

(** The board: [[...Array(64)].map((_, i) => renderSquare(i))]. *)
Definition renderBoard (st : State) : list SquareView :=
  map (renderSquare st) (seq 0 64).

(** The line under the board: the suggested move or ['None']. *)
Definition suggestionLine (st : State) : string :=
  "Suggested move: "
  ++ match suggestedMove st with
     | Some suggested => from suggested ++ " to " ++ to suggested
     | None => "None"
     end.

(** The point-difference line: who is ahead and by how much. *)
Inductive Lead : Type :=
| WhiteAhead (by' : Z)
| BlackAhead (by' : Z)
| Even.

Definition pointDifferenceLine (st : State) : Lead :=
  if (pointDifference st >? 0)%Z then WhiteAhead (pointDifference st)
  else if (pointDifference st <? 0)%Z then BlackAhead (Z.abs (pointDifference st))
  else Even.

(** Whether the "Game Over" panel is shown: [gameStatus && ...]. *)
Definition gameOverShown (st : State) : bool :=
  JS.truthy (Some (gameStatus st)).

End Rendering.

(** [row.split(' ')]: the pieces of a string between single spaces. *)
Fixpoint split (row : string) : list string :=
  match row with
  | EmptyString => [""]
  | String c rest =>
      if Ascii.eqb c " " then "" :: split rest
      else match split rest with
           | piece :: pieces => String c piece :: pieces
           | [] => [String c ""]
           end
  end.

(** A row of the move history as drawn: [move.split(' ')[0]] in the first
    span and, when truthy, [move.split(' ')[1]] in the second. *)
Definition historyRow (row : string) : string * option string :=
  (JS.interpolate (nth_error (split row) 0),
   match nth_error (split row) 1 with
   | Some second => if JS.truthy (Some second) then Some second else None
   | None => None
   end).

(** ** Exact percentages

    The integer nearest to [100 * whiteScore / totalScore] by exact
    arithmetic, halves rounded up, against which the floating-point
    computation of [probabilities] is compared. *)
Definition exactPercent (whiteScore blackScore : Z) : Z :=
  let totalScore := (whiteScore + blackScore)%Z in
  ((200 * whiteScore + totalScore) / (2 * totalScore))%Z.

(** [k] is an integer nearest to [100 * whiteScore / totalScore], and the
    two probabilities are [k] and [100 - k]. *)
Definition isPercent (whiteScore blackScore k : Z) : bool :=
  let totalScore := (whiteScore + blackScore)%Z in
  let p := probabilities whiteScore blackScore in
  (0 <=? k)%Z && (k <=? 100)%Z
  && (2 * Z.abs (k * totalScore - 100 * whiteScore) <=? totalScore)%Z
  && PrimFloat.eqb (white p) (JS.ofZ k)
  && PrimFloat.eqb (black p) (JS.ofZ (100 - k))
  && PrimFloat.eqb (PrimFloat.add (white p) (black p)) 100%float.

(** The integers [start], [start + 1], ... ([count] of them). *)
Fixpoint zrange (count : nat) (start : Z) : list Z :=
  match count with
  | 0 => []
  | S count' => start :: zrange count' (start + 1)%Z
  end.

(** The check of all score pairs of total at most [n], other than
    [(0, 0)]: the percentage is the exact one or, on some ties, the integer
    below. *)
Definition percentagesChecked (n : nat) : bool :=
  forallb
    (fun w =>
       forallb
         (fun b =>
            if (w + b =? 0)%Z then true
            else
              let k := exactPercent w b in
              isPercent w b k || isPercent w b (k - 1))
         (zrange (S n - Z.to_nat w) 0%Z))
    (zrange (S n) 0%Z).

(** The number of pieces on a board. *)
Definition pieceCount (board : Board) : nat :=
  List.length
    (filter (fun cell => match cell with Some _ => true | None => false end)
            (List.concat board)).

(** More states of the scripted game: after the player's 1. f3, with the
    bot's reply pending; and a session in which the player also makes
    Black's mating move by hand while the bot's reply to 2. g4 is pending,
    so that, once that reply has been made, a second timer is left that
    closes over the final position. *)
Definition replyPending : @State scriptedEngine :=
  @run scriptedEngine
       [SquareClick (Script.cell "f2"); SquareClick (Script.cell "f3")]
       scriptedStart.

Definition lastTimerPending : @State scriptedEngine :=
  @run scriptedEngine
       [SquareClick (Script.cell "f2"); SquareClick (Script.cell "f3");
        TimerFires 0;
        SquareClick (Script.cell "g2"); SquareClick (Script.cell "g4");
        SquareClick (Script.cell "d8"); SquareClick (Script.cell "h4");
        TimerFires 0]
       scriptedStart.

(** [game.moves({ square, verbose: true })] of the scripted engine. *)
Definition scriptedMovesFrom (ply : nat) (origin : string) : list Move :=
  filter (fun mv => String.eqb (from mv) origin) (Script.movesAt ply).

(** Two boards with the same pieces on different cells. *)
Definition rookAndPawn : Board :=
  [[Some (mkPiece White Rook); None]; [Some (mkPiece Black Pawn); None]].

Definition pawnAndRook : Board :=
  [[None; Some (mkPiece Black Pawn)]; [None; Some (mkPiece White Rook)]].

(** * Properties *)

(** ** The board cells *)

Example squareName_corners :
  squareName 0 = "a8" /\ squareName 7 = "h8" /\
  squareName 56 = "a1" /\ squareName 63 = "h1" /\
  squareName (Script.cell "e2") = "e2" /\ Script.cell "e2" = 52.
Proof. repeat split; reflexivity. Qed.

(** ** The scoring reducers *)

Section Reducers.

Lemma moveScore_range (m : Move) : (0 <= moveScore m <= 2)%Z.
Proof.
  unfold moveScore; destruct (isCapture m), (isSpecial m); lia.
Qed.

(** The Grand Master reducer compares the score in words with the running
    best. *)
Lemma grandMasterStep_moveScore (best : Scored) (current : Move) :
  grandMasterStep best current =
  if (moveScore current >? score best)%Z
  then {| move := current; score := moveScore current |}
  else best.
Proof.
  unfold grandMasterStep, moveScore, isCapture, isSpecial.
  destruct (JS.includes (flags current) "c" || JS.includes (flags current) "e");
    [reflexivity|].
  destruct (JS.includes (flags current) "p" || JS.includes (flags current) "k");
    reflexivity.
Qed.

Lemma suggestStep_grandMasterStep (best : Scored) (current : Move) :
  suggestStep best current = grandMasterStep best current.
Proof.
  unfold suggestStep, grandMasterStep.
  destruct (JS.includes (flags current) "c" || JS.includes (flags current) "e"),
           (JS.includes (flags current) "p" || JS.includes (flags current) "k");
    reflexivity.
Qed.

Lemma fold_suggest_grandMaster (moves : list Move) :
  forall acc, fold_left suggestStep moves acc = fold_left grandMasterStep moves acc.
Proof.
  induction moves as [|m rest IH]; intro acc; simpl.
  - reflexivity.
  - rewrite suggestStep_grandMasterStep. apply IH.
Qed.

Lemma grandMaster_scan (moves : list Move) (seed : Scored) :
  ScanResult moves seed (fold_left grandMasterStep moves seed).
Proof.
  induction moves as [|x l IH] using rev_ind.
  - apply scan_seed; [reflexivity | intros m []].
  - rewrite fold_left_app; cbn [fold_left].
    rewrite grandMasterStep_moveScore.
    set (r0 := fold_left grandMasterStep l seed) in *.
    destruct (Z.gtb_spec (moveScore x) (score r0)) as [Hgt|Hle].
    + (* [x] replaces the running best *)
      apply scan_move with (before := l) (after := []); cbn [move score].
      * reflexivity.
      * reflexivity.
      * destruct IH as [Heq _ | ? ? _ _ Hseed _ _]; [rewrite Heq in Hgt|]; lia.
      * intros m Hm.
        destruct IH as [Heq Hall | before after Hl Hsc _ Hb Ha].
        -- rewrite Heq in Hgt. specialize (Hall m Hm). lia.
        -- rewrite Hl in Hm. apply in_app_or in Hm.
           destruct Hm as [Hm | [Hm | Hm]].
           ++ specialize (Hb m Hm). lia.
           ++ subst m. lia.
           ++ specialize (Ha m Hm). lia.
      * intros m [].
    + (* the running best stays *)
      destruct IH as [Heq Hall | before after Hl Hsc Hseed Hb Ha].
      * apply scan_seed; [assumption|].
        intros m Hm. apply in_app_or in Hm. destruct Hm as [Hm | [Hm | []]].
        -- apply Hall, Hm.
        -- subst m. rewrite Heq in Hle. exact Hle.
      * apply scan_move with (before := before) (after := after ++ [x]).
        -- rewrite Hl, <- app_assoc. reflexivity.
        -- assumption.
        -- assumption.
        -- assumption.
        -- intros m Hm. apply in_app_or in Hm. destruct Hm as [Hm | [Hm | []]].
           ++ apply Ha, Hm.
           ++ subst m. exact Hle.
Qed.

(** The Advanced reducer keeps the last capture it has met. *)
Lemma advanced_no_capture (moves : list Move) (seed : option Move) :
  (forall m, In m moves -> isCapture m = false) ->
  fold_left advancedStep moves seed = seed.
Proof.
  revert seed; induction moves as [|x l IH]; intros seed Hnone; simpl.
  - reflexivity.
  - unfold advancedStep at 2.
    assert (Hx : isCapture x = false) by (apply Hnone; left; reflexivity).
    unfold isCapture in Hx. rewrite Hx.
    apply IH. intros m Hm. apply Hnone. right. exact Hm.
Qed.

Lemma advanced_last_capture (before after : list Move) (chosen : Move)
      (seed : option Move) :
  isCapture chosen = true ->
  (forall m, In m after -> isCapture m = false) ->
  fold_left advancedStep (before ++ chosen :: after) seed = Some chosen.
Proof.
  intros Hc Hafter.
  rewrite fold_left_app; cbn [fold_left].
  unfold advancedStep at 2. unfold isCapture in Hc. rewrite Hc.
  apply advanced_no_capture, Hafter.
Qed.

(** A list holding a capture splits at its last capture. *)
Lemma last_capture_split (moves : list Move) :
  (exists m, In m moves /\ isCapture m = true) ->
  exists before chosen after,
    moves = before ++ chosen :: after /\
    isCapture chosen = true /\
    (forall m, In m after -> isCapture m = false).
Proof.
  induction moves as [|x l IH] using rev_ind; intros [m [Hin Hcap]].
  - destruct Hin.
  - destruct (isCapture x) eqn:Hx.
    + exists l, x, []. repeat split; [assumption | intros ? []].
    + apply in_app_or in Hin. destruct Hin as [Hin | [Hin | []]].
      * destruct IH as [before [chosen [after [Hl [Hc Ha]]]]].
        { exists m. split; assumption. }
        exists before, chosen, (after ++ [x]). repeat split.
        -- rewrite Hl, <- app_assoc. reflexivity.
        -- assumption.
        -- intros m' Hm'. apply in_app_or in Hm'.
           destruct Hm' as [Hm' | [Hm' | []]]; [apply Ha, Hm' | subst; assumption].
      * subst m. congruence.
Qed.

End Reducers.

(** ** The bot tiers and the advisor *)

Section BotAndAdvisor.

Context {engine : RulesEngine}.

(** C1. On a non-empty list of legal moves, the move [suggestMove] stores
    is the move the Grand Master tier of [makeBotMove] chooses on the same
    list, whatever the random draw: the two reducers score and replace
    alike and start from the same seed. *)
Theorem suggestMove_agrees_with_grandMaster
        (st : State) (callback : BotTimer) (rnd : nat) :
  legalMoves (position (game st)) <> [] ->
  legalMoves (position (closedGame callback)) = legalMoves (position (game st)) ->
  suggestedMove (suggestMove st) =
  chooseBotMove 3 rnd (legalMoves (position (closedGame callback))).
Proof.
  intros Hne Hsame. rewrite Hsame. unfold suggestMove.
  destruct (legalMoves (position (game st))) as [|first rest] eqn:Hmoves.
  - contradiction.
  - cbn [setSuggestedMove suggestedMove chooseBotMove].
    unfold suggestedOf. rewrite fold_suggest_grandMaster. reflexivity.
Qed.

(** C2. On a non-empty list the Grand Master tier chooses a move of the
    highest score (2 for a capture or en-passant flag, else 1 for a
    promotion or king-side flag, else 0), and the earliest such move: every
    move before it scores strictly less, every move after it scores at most
    as much.  The seed [{ move: moves[0], score: -1 }] is below every score,
    so the chosen move always comes from the scan. *)
Theorem grandMaster_chooses_first_highest (moves : list Move) (rnd : nat) :
  moves <> [] ->
  exists best before after,
    chooseBotMove 3 rnd moves = Some best /\
    moves = before ++ best :: after /\
    (forall m, In m before -> (moveScore m < moveScore best)%Z) /\
    (forall m, In m after -> (moveScore m <= moveScore best)%Z) /\
    (-1 < moveScore best)%Z.
Proof.
  intros Hne. destruct moves as [|first rest]; [contradiction|].
  cbn [chooseBotMove].
  set (seed := {| move := first; score := (-1)%Z |}).
  destruct (grandMaster_scan (first :: rest) seed)
    as [_ Hall | before after Hsplit Hscore Hseed Hbefore Hafter].
  - (* no move is as low as the seed *)
    specialize (Hall first (or_introl eq_refl)).
    pose proof (moveScore_range first). cbn [seed score] in Hall. lia.
  - exists (move (fold_left grandMasterStep (first :: rest) seed)), before, after.
    rewrite <- Hscore. cbn [seed score] in Hseed.
    repeat split; assumption.
Qed.

(** C3. When some legal move is a capture or an en-passant capture, the
    Advanced tier returns such a move, one of the list, for every value of
    the random draw. *)
Theorem advanced_returns_capture (moves : list Move) (rnd : nat) :
  (exists m, In m moves /\ isCapture m = true) ->
  exists chosen,
    chooseBotMove 2 rnd moves = Some chosen /\
    In chosen moves /\
    isCapture chosen = true.
Proof.
  intros Hex.
  destruct (last_capture_split moves Hex)
    as [before [chosen [after [Hsplit [Hcap Hafter]]]]].
  exists chosen. subst moves. repeat split.
  - destruct before as [|first before']; cbn [app chooseBotMove].
    + apply (advanced_last_capture [] after chosen); assumption.
    + apply (advanced_last_capture (first :: before') after chosen); assumption.
  - apply in_or_app. right. left. reflexivity.
  - assumption.
Qed.

(** C4, as amended. The Advanced tier returns the last capture or
    en-passant capture of the list, whatever stands before it and whatever
    the random draw: its reducer replaces the running choice at every
    capture it meets. *)
Theorem advanced_chooses_last_capture
        (before after : list Move) (chosen : Move) (rnd : nat) :
  isCapture chosen = true ->
  (forall m, In m after -> isCapture m = false) ->
  chooseBotMove 2 rnd (before ++ chosen :: after) = Some chosen.
Proof.
  intros Hcap Hafter.
  destruct before as [|first before']; cbn [app chooseBotMove].
  - apply (advanced_last_capture [] after chosen); assumption.
  - apply (advanced_last_capture (first :: before') after chosen); assumption.
Qed.

End BotAndAdvisor.

(** ** The handlers *)

Section Handlers.

Context {engine : RulesEngine}.

(** The setters touch one cell each. *)
Lemma gameEffect_frame (st : State) :
  game (gameEffect st) = game st /\
  selectedSquare (gameEffect st) = selectedSquare st /\
  botDifficulty (gameEffect st) = botDifficulty st /\
  errorMessage (gameEffect st) = errorMessage st /\
  darkMode (gameEffect st) = darkMode st /\
  moveHistory (gameEffect st) = moveHistory st /\
  timers (gameEffect st) = timers st /\
  gameChanged (gameEffect st) = gameChanged st.
Proof.
  unfold gameEffect, checkGameStatus, calculateWinProbability, suggestMove.
  destruct (legalMoves (position (game st))); cbn;
    repeat match goal with
           | |- context [if ?c then _ else _] => destruct c; cbn
           end;
    repeat split; reflexivity.
Qed.

Lemma render_frame (st : State) :
  game (render st) = game st /\
  selectedSquare (render st) = selectedSquare st /\
  botDifficulty (render st) = botDifficulty st /\
  errorMessage (render st) = errorMessage st /\
  darkMode (render st) = darkMode st /\
  moveHistory (render st) = moveHistory st /\
  timers (render st) = timers st /\
  gameChanged (render st) = false.
Proof.
  unfold render. destruct (gameChanged st) eqn:Hc.
  - destruct (gameEffect_frame (effectDone st))
      as (Hg & Hs & Hb & He & Hd & Hm & Ht & Hch).
    rewrite Hg, Hs, Hb, He, Hd, Hm, Ht, Hch. repeat split; reflexivity.
  - repeat split; try reflexivity. exact Hc.
Qed.

(** A click on a second square, while a square is selected, attempts the
    move. *)
Lemma handleSquareClick_attempts (st : State) (selected square : string) :
  selectedSquare st = Some selected ->
  selected <> "" ->
  square <> selected ->
  handleSquareClick square st = makeMove selected square st.
Proof.
  intros Hsel Hne Hother. unfold handleSquareClick.
  rewrite Hsel. cbn [JS.strictEq JS.truthy].
  destruct (String.eqb_spec selected square) as [Heq|_]; [congruence|].
  destruct (String.eqb_spec selected "") as [Heq|_]; [congruence|].
  reflexivity.
Qed.

(** C5. With a square selected, a click on another square whose move the
    engine refuses (by returning [null] or by throwing) sets the error
    message to "Invalid move", clears the selection and changes nothing
    else: the instance and its position, the move history and the pending
    bot timers are as before, and no effect is triggered. *)
Theorem rejected_move_reports_invalid (st : State) (selected square : string) :
  selectedSquare st = Some selected ->
  selected <> "" ->
  square <> selected ->
  requestMove (position (game st)) selected square = Rejected \/
  requestMove (position (game st)) selected square = Raised ->
  let st' := handleSquareClick square st in
  st' = makeMove selected square st /\
  st' = setSelectedSquare None (setErrorMessage "Invalid move" st) /\
  errorMessage st' = "Invalid move" /\
  selectedSquare st' = None /\
  game st' = game st /\
  moveHistory st' = moveHistory st /\
  timers st' = timers st /\
  gameChanged st' = gameChanged st.
Proof.
  intros Hsel Hne Hother Hrefused st'. subst st'.
  rewrite (handleSquareClick_attempts st selected square Hsel Hne Hother).
  split; [reflexivity|].
  unfold makeMove, gameMove.
  destruct Hrefused as [Hr | Hr]; rewrite Hr; repeat split; reflexivity.
Qed.

(** C10. [resetGame] installs a new instance on the starting position and
    clears the selection, the move history, the game status and the error
    message; the difficulty level and the dark-mode setting are as before,
    also after the render that follows. *)
Theorem resetGame_clears_and_keeps_settings (st : State) :
  let st' := resetGame st in
  game st' = newChess /\
  position (game st') = startPosition /\
  selectedSquare st' = None /\
  moveHistory st' = [] /\
  gameStatus st' = "" /\
  errorMessage st' = "" /\
  botDifficulty st' = botDifficulty st /\
  darkMode st' = darkMode st /\
  let st'' := step ResetClick st in
  game st'' = newChess /\
  selectedSquare st'' = None /\
  moveHistory st'' = [] /\
  errorMessage st'' = "" /\
  botDifficulty st'' = botDifficulty st /\
  darkMode st'' = darkMode st.
Proof.
  cbn zeta. repeat (split; [reflexivity|]).
  unfold step; cbn [dispatch].
  destruct (render_frame (resetGame st)) as (Hg & Hs & Hb & He & Hd & Hm & _).
  rewrite Hg, Hs, Hb, He, Hd, Hm. repeat split; reflexivity.
Qed.

(** C9, what the code does. When the position has no legal move,
    [suggestMove] leaves the state as it is: the suggestion computed for an
    earlier position stays in place. *)
Theorem suggestMove_without_moves_keeps_suggestion (st : State) :
  legalMoves (position (game st)) = [] ->
  suggestMove st = st /\
  suggestedMove (suggestMove st) = suggestedMove st.
Proof.
  intros Hnone. unfold suggestMove. rewrite Hnone. split; reflexivity.
Qed.

(** C6, what the code does. When the material scores of both sides are
    zero, both probabilities [calculateWinProbability] stores are [NaN]:
    the quotient [0 / 0] is rounded, scaled and complemented unguarded. *)
Theorem zero_material_gives_nan (st : State) :
  materialScores (boardOf (position (game st))) = (0, 0)%Z ->
  PrimFloat.is_nan (white (winProbability (calculateWinProbability st))) = true /\
  PrimFloat.is_nan (black (winProbability (calculateWinProbability st))) = true.
Proof.
  intros Hzero. unfold calculateWinProbability. rewrite Hzero.
  cbn [fst snd setPointDifference setWinProbability winProbability].
  split; vm_compute; reflexivity.
Qed.


(** In a session, the instance in the state is always a new one: every
    [setGame] installs [new Chess()] or [new Chess(game.fen())], and the
    instance a move was made on is left to the timer that closed over
    it. *)
Lemma reachable_instance_is_new (st : State) :
  reachable st -> history (game st) = [] /\ gameChanged st = false.
Proof.
  induction 1 as [|ev st _ [IHh IHc]].
  - unfold initial.
    destruct (render_frame mounted) as (Hg & _ & _ & _ & _ & _ & _ & Hc).
    rewrite Hg, Hc. split; reflexivity.
  - unfold step.
    destruct (render_frame (dispatch ev st)) as (Hg & _ & _ & _ & _ & _ & _ & Hc).
    rewrite Hg, Hc. split; [|reflexivity].
    destruct ev as [cell|rnd| | |level|]; cbn [dispatch].
    + destruct (cell <? 64)%nat; [|exact IHh].
      set (square := squareName cell).
      unfold handleSquareClick.
      assert (Hmk : forall a b, history (game (makeMove a b st)) = []).
      { intros a b. unfold makeMove, gameMove.
        destruct (requestMove (position (game st)) a b); cbn; auto. }
      destruct (JS.strictEq (selectedSquare st) square); [exact IHh|].
      destruct (selectedSquare st) as [selected|];
        [destruct (JS.truthy (Some selected)); [apply Hmk|]|];
        destruct (pieceAt (position (game st)) square) as [found|];
        try destruct (Color_eqb (color found) (sideToMove (position (game st))));
        exact IHh.
    + destruct (timers st) as [|callback pending]; [exact IHh|].
      unfold makeBotMove.
      destruct (legalMoves (position (closedGame callback))); [exact IHh|].
      destruct (chooseBotMove (closedDifficulty callback) rnd (m :: l));
        [|exact IHh].
      unfold gameMoveObject.
      destruct (replayMove (position (closedGame callback)) m0); cbn; auto.
    + reflexivity.
    + unfold undoMove, gameUndo. rewrite IHh. exact IHh.
    + destruct (level <? List.length difficultyLevels)%nat; exact IHh.
    + exact IHh.
Qed.

(** Hence the Undo button changes nothing in a session: [game.undo()]
    finds no move on the instance in the state and returns [null]. *)
Lemma undoMove_in_session (st : State) :
  reachable st -> undoMove st = st /\ step UndoClick st = st.
Proof.
  intros Hr. destruct (reachable_instance_is_new st Hr) as [Hh Hc].
  assert (Hu : undoMove st = st).
  { unfold undoMove, gameUndo. rewrite Hh. reflexivity. }
  split; [exact Hu|].
  unfold step; cbn [dispatch]. rewrite Hu. unfold render. rewrite Hc. reflexivity.
Qed.

Lemma reachable_run (evs : list Event) (st : State) :
  reachable st -> reachable (run evs st).
Proof.
  revert st. induction evs as [|ev evs IH]; intros st Hr; cbn.
  - exact Hr.
  - apply IH. apply reach_step. exact Hr.
Qed.

End Handlers.

(** ** The move history *)

Section MoveHistory.

Lemma lastElement_snoc {A : Type} (rows : list A) (row : A) :
  JS.lastElement (rows ++ [row]) = Some row.
Proof.
  induction rows as [|r rows IH]; [reflexivity|].
  cbn [app JS.lastElement]. rewrite IH.
  destruct (rows ++ [row]) eqn:Hrows; [|reflexivity].
  destruct rows; discriminate Hrows.
Qed.

(** The bot's move completes the last row. *)
Lemma historyAfter_bot_snoc (rows : list string) (row : string) (reply : Move) :
  historyAfter reply ByBot (rows ++ [row])
  = rows ++ [(row ++ " " ++ san reply)%string].
Proof.
  unfold historyAfter, JS.sliceButLast.
  rewrite lastElement_snoc, removelast_last. reflexivity.
Qed.

(** A complete turn adds one row. *)
Lemma afterTurns_length (turns : list (Move * Move)) :
  forall rows, List.length (afterTurns turns rows) = List.length rows + List.length turns.
Proof.
  unfold afterTurns.
  induction turns as [|[mv reply] turns IH]; intro rows; cbn [fold_left List.length].
  - lia.
  - rewrite IH. cbn [fst snd].
    unfold historyAfter at 2. rewrite historyAfter_bot_snoc.
    rewrite !length_app. cbn [List.length]. lia.
Qed.

(** C8, what the code does. After [k - 1] complete turns the history has
    [k - 1] rows, and the player's [k]th move starts a row labelled
    [floor((k - 1) / 2) + 1], into which the bot's reply is merged.  The
    label is [k] for the first turn only: the rows are numbered 1, 1, 2,
    2, 3, 3, and so on. *)
Theorem kth_row_label (turns : list (Move * Move)) (mv reply : Move) :
  let prev := afterTurns turns [] in
  let label := JS.numberToString (List.length turns / 2 + 1) in
  List.length prev = List.length turns /\
  historyAfter mv ByPlayer prev = prev ++ [(label ++ ". " ++ san mv)%string] /\
  historyAfter reply ByBot (historyAfter mv ByPlayer prev)
  = prev ++ [((label ++ ". " ++ san mv) ++ " " ++ san reply)%string] /\
  (List.length turns / 2 + 1 = List.length turns + 1 <-> List.length turns = 0).
Proof.
  cbn zeta.
  assert (Hlen : List.length (afterTurns turns []) = List.length turns)
    by (rewrite afterTurns_length; reflexivity).
  split; [exact Hlen|].
  assert (Hrow : historyAfter mv ByPlayer (afterTurns turns [])
                 = afterTurns turns []
                   ++ [(JS.numberToString (List.length turns / 2 + 1)
                        ++ ". " ++ san mv)%string]).
  { unfold historyAfter. rewrite Hlen. reflexivity. }
  split; [exact Hrow|].
  split.
  - rewrite Hrow. apply historyAfter_bot_snoc.
  - pose proof (Nat.div_mod_eq (List.length turns) 2) as Hdiv.
    pose proof (Nat.mod_upper_bound (List.length turns) 2). lia.
Qed.

(** The second turn of the fool's mate: its row is labelled 1. *)
Example second_row_labelled_one :
  historyAfter Script.g4 ByPlayer (afterTurns [(Script.f3, Script.e5)] [])
  = ["1. f3 e5"; "1. g4"].
Proof. reflexivity. Qed.

End MoveHistory.

(** ** The properties on concrete inputs *)

Lemma suggestMove_agrees_with_grandMaster_witness :
  @legalMoves scriptedEngine (position (game scriptedStart)) <> [] /\
  suggestedMove (suggestMove scriptedStart) =
  chooseBotMove 3 1 (@legalMoves scriptedEngine
                       (position (closedGame (mkBotTimer newChess 3)))).
Proof.
  split.
  - vm_compute. discriminate.
  - apply (suggestMove_agrees_with_grandMaster
             scriptedStart (mkBotTimer newChess 3) 1).
    + vm_compute. discriminate.
    + reflexivity.
Defined.

Lemma grandMaster_chooses_first_highest_witness :
  [Script.Nf3; Script.castles; Script.exd5; Script.promotes; Script.Nxe5] <> [] /\
  exists best before after,
    chooseBotMove 3 0
      [Script.Nf3; Script.castles; Script.exd5; Script.promotes; Script.Nxe5]
    = Some best /\
    [Script.Nf3; Script.castles; Script.exd5; Script.promotes; Script.Nxe5]
    = before ++ best :: after /\
    (forall m, In m before -> (moveScore m < moveScore best)%Z) /\
    (forall m, In m after -> (moveScore m <= moveScore best)%Z) /\
    (-1 < moveScore best)%Z.
Proof.
  split.
  - discriminate.
  - apply (grandMaster_chooses_first_highest
             [Script.Nf3; Script.castles; Script.exd5; Script.promotes; Script.Nxe5] 0).
    discriminate.
Defined.

Lemma advanced_returns_capture_witness :
  (exists m, In m [Script.Nf3; Script.exd6; Script.castles] /\ isCapture m = true) /\
  exists chosen,
    chooseBotMove 2 0 [Script.Nf3; Script.exd6; Script.castles] = Some chosen /\
    In chosen [Script.Nf3; Script.exd6; Script.castles] /\
    isCapture chosen = true.
Proof.
  assert (Hex : exists m, In m [Script.Nf3; Script.exd6; Script.castles]
                          /\ isCapture m = true).
  { exists Script.exd6. split; [right; left; reflexivity | reflexivity]. }
  split.
  - exact Hex.
  - apply (advanced_returns_capture [Script.Nf3; Script.exd6; Script.castles] 0 Hex).
Defined.

Lemma advanced_chooses_last_capture_witness :
  isCapture Script.Nxe5 = true /\
  (forall m, In m [Script.Nf3] -> isCapture m = false) /\
  chooseBotMove 2 0 ([Script.exd5] ++ Script.Nxe5 :: [Script.Nf3])
  = Some Script.Nxe5.
Proof.
  assert (Hafter : forall m, In m [Script.Nf3] -> isCapture m = false).
  { intros m [Hm | []]. subst m. reflexivity. }
  split; [reflexivity|]. split; [exact Hafter|].
  apply (advanced_chooses_last_capture [Script.exd5] [Script.Nf3] Script.Nxe5 0).
  - reflexivity.
  - exact Hafter.
Defined.

(** C4, the claim refuted. With two captures in the list, the Advanced tier
    returns the second for either value of the random draw, not the first
    one met. *)
Lemma advanced_first_capture_counterexample :
  isCapture Script.exd5 = true /\
  isCapture Script.Nxe5 = true /\
  chooseBotMove 2 0 [Script.exd5; Script.Nxe5] = Some Script.Nxe5 /\
  chooseBotMove 2 1 [Script.exd5; Script.Nxe5] = Some Script.Nxe5 /\
  Script.Nxe5 <> Script.exd5.
Proof.
  repeat split; try reflexivity. discriminate.
Qed.

Lemma rejected_move_reports_invalid_witness :
  selectedSquare e2Selected = Some "e2" /\
  @requestMove scriptedEngine (position (game e2Selected)) "e2" "e5" = Rejected /\
  errorMessage (handleSquareClick "e5" e2Selected) = "Invalid move" /\
  selectedSquare (handleSquareClick "e5" e2Selected) = None /\
  game (handleSquareClick "e5" e2Selected) = game e2Selected /\
  moveHistory (handleSquareClick "e5" e2Selected) = moveHistory e2Selected /\
  timers (handleSquareClick "e5" e2Selected) = timers e2Selected.
Proof.
  split; [reflexivity|]. split; [reflexivity|].
  destruct (rejected_move_reports_invalid e2Selected "e2" "e5")
    as (_ & _ & He & Hs & Hg & Hm & Ht & _).
  - reflexivity.
  - discriminate.
  - discriminate.
  - left. reflexivity.
  - repeat split; assumption.
Defined.

Lemma zero_material_gives_nan_witness :
  materialScores (@boardOf bareKingsEngine (position (game bareKings)))
  = (0, 0)%Z /\
  PrimFloat.is_nan (white (winProbability (calculateWinProbability bareKings)))
  = true /\
  PrimFloat.is_nan (black (winProbability (calculateWinProbability bareKings)))
  = true.
Proof.
  split.
  - reflexivity.
  - apply (zero_material_gives_nan bareKings). reflexivity.
Defined.


Lemma suggestMove_without_moves_keeps_suggestion_witness :
  @legalMoves scriptedEngine (position (game afterFoolsMate)) = [] /\
  suggestedMove afterFoolsMate = Some Script.Qh4 /\
  suggestMove afterFoolsMate = afterFoolsMate /\
  suggestedMove (suggestMove afterFoolsMate) = suggestedMove afterFoolsMate.
Proof.
  split; [reflexivity|]. split; [reflexivity|].
  apply (suggestMove_without_moves_keeps_suggestion afterFoolsMate).
  reflexivity.
Defined.

(** The fool's mate session ends with two rows in the history and the Undo
    button without effect. *)
Example undo_after_foolsMate :
  moveHistory afterFoolsMate = ["1. f3 e5"; "1. g4 Qh4#"] /\
  step UndoClick afterFoolsMate = afterFoolsMate.
Proof.
  split; [reflexivity|].
  apply undoMove_in_session, reachable_run, reach_initial.
Qed.

(** * Further properties of the component *)

(** ** The tiers of [makeBotMove] *)

Section Tiers.

Context {engine : RulesEngine}.

(** The Advanced scan ends on its seed or on a move of the list. *)
Lemma advanced_seed_or_member (moves : list Move) :
  forall seed,
    fold_left advancedStep moves seed = seed \/
    exists chosen, fold_left advancedStep moves seed = Some chosen /\ In chosen moves.
Proof.
  induction moves as [|x l IH] using rev_ind; intro seed.
  - left. reflexivity.
  - rewrite fold_left_app; cbn [fold_left]. unfold advancedStep at 1 3.
    destruct (JS.includes (flags x) "c" || JS.includes (flags x) "e").
    + right. exists x. split; [reflexivity|]. apply in_or_app. right. left. reflexivity.
    + destruct (IH seed) as [Hseed | [chosen [Hc Hin]]].
      * left. exact Hseed.
      * right. exists chosen. split; [exact Hc|]. apply in_or_app. left. exact Hin.
Qed.

(** X1. Whatever the difficulty level, when the random index is within
    the list, the move [makeBotMove] picks is one of the legal moves it was
    given. *)
Theorem bot_choice_is_legal (level rnd : nat) (moves : list Move) :
  rnd < List.length moves ->
  exists chosen, chooseBotMove level rnd moves = Some chosen /\ In chosen moves.
Proof.
  intros Hrnd.
  destruct (nth_error moves rnd) as [seed|] eqn:Hseed;
    [|apply nth_error_None in Hseed; lia].
  pose proof (nth_error_In _ _ Hseed) as Hin.
  destruct moves as [|first rest]; [destruct Hin|].
  destruct level as [|[|[|[|level]]]]; cbn [chooseBotMove].
  - exists seed. split; assumption.
  - exists seed. split; assumption.
  - rewrite Hseed.
    destruct (advanced_seed_or_member (first :: rest) (Some seed))
      as [Hs | [chosen [Hc Hm]]].
    + exists seed. split; assumption.
    + exists chosen. split; assumption.
  - eexists. split; [reflexivity|].
    destruct (grandMaster_scan (first :: rest) {| move := first; score := (-1)%Z |})
      as [Heq _ | before after Hsplit _ _ _ _].
    + rewrite Heq. left. reflexivity.
    + rewrite Hsplit at 2. apply in_or_app. right. left. reflexivity.
  - exists seed. split; assumption.
Qed.

(** The Beginner and the Intermediate level play alike: both take
    [moves[rnd]], as does every level outside the four cases. *)
Theorem beginner_intermediate_alike (level rnd : nat) (moves : list Move) :
  level <> 2 -> level <> 3 ->
  chooseBotMove level rnd moves = chooseBotMove 0 rnd moves /\
  chooseBotMove level rnd moves = chooseBotMove 1 rnd moves /\
  (moves <> [] -> chooseBotMove level rnd moves = nth_error moves rnd).
Proof.
  intros H2 H3.
  destruct moves as [|first rest].
  - repeat split; try reflexivity. intros Hne. contradiction.
  - destruct level as [|[|[|[|level]]]]; try contradiction;
      repeat split; reflexivity.
Qed.

(** X2. When no legal move is a capture or an en-passant capture, the
    Advanced level plays the randomly drawn move [moves[rnd]]. *)
Theorem advanced_without_capture_plays_draw (rnd : nat) (moves : list Move) :
  (forall m, In m moves -> isCapture m = false) ->
  chooseBotMove 2 rnd moves = nth_error moves rnd /\
  chooseBotMove 2 rnd moves = chooseBotMove 0 rnd moves.
Proof.
  intros Hnone. destruct moves as [|first rest].
  - split; destruct rnd; reflexivity.
  - cbn [chooseBotMove]. rewrite advanced_no_capture by exact Hnone.
    split; reflexivity.
Qed.

(** X3. When the position has legal moves, [suggestMove] stores one of
    them, the earliest of the highest score: every legal move listed before
    it scores strictly less, every one after it at most as much.  Nothing
    else in the state changes. *)
Theorem suggestMove_stores_first_highest (st : State) :
  legalMoves (position (game st)) <> [] ->
  exists best before after,
    suggestMove st = setSuggestedMove (Some best) st /\
    legalMoves (position (game st)) = before ++ best :: after /\
    (forall m, In m before -> (moveScore m < moveScore best)%Z) /\
    (forall m, In m after -> (moveScore m <= moveScore best)%Z).
Proof.
  intros Hne. unfold suggestMove.
  destruct (legalMoves (position (game st))) as [|first rest]; [contradiction|].
  unfold suggestedOf. rewrite fold_suggest_grandMaster.
  set (seed := {| move := first; score := (-1)%Z |}).
  destruct (grandMaster_scan (first :: rest) seed)
    as [_ Hall | before after Hsplit Hscore _ Hbefore Hafter].
  - specialize (Hall first (or_introl eq_refl)).
    pose proof (moveScore_range first). cbn [seed score] in Hall. lia.
  - exists (move (fold_left grandMasterStep (first :: rest) seed)), before, after.
    rewrite <- Hscore. repeat split; assumption.
Qed.

End Tiers.

(** ** Clicks, moves and replies *)

Section Turns.

Context {engine : RulesEngine}.

(** Reading a cell of a state built by setters. *)
Ltac read_cells H :=
  cbn [game selectedSquare suggestedMove botDifficulty errorMessage
       winProbability pointDifference darkMode moveHistory gameStatus
       timers gameChanged
       setGame setSelectedSquare setSuggestedMove setBotDifficulty
       setErrorMessage setWinProbability setPointDifference setDarkMode
       setMoveHistory setGameStatus setTimeout withTimers effectDone
       updateMoveHistory resetGame newChess app] in H.

(** Rendering leaves the cells the effect does not write as the handler
    set them. *)
Lemma step_frame (ev : Event) (st : State) :
  game (step ev st) = game (dispatch ev st) /\
  selectedSquare (step ev st) = selectedSquare (dispatch ev st) /\
  botDifficulty (step ev st) = botDifficulty (dispatch ev st) /\
  errorMessage (step ev st) = errorMessage (dispatch ev st) /\
  darkMode (step ev st) = darkMode (dispatch ev st) /\
  moveHistory (step ev st) = moveHistory (dispatch ev st) /\
  timers (step ev st) = timers (dispatch ev st).
Proof.
  unfold step.
  destruct (render_frame (dispatch ev st)) as (Hg & Hs & Hb & He & Hd & Hm & Ht & _).
  repeat split; assumption.
Qed.

(** X4. With no square selected, a click on a square that is empty or
    holds a piece of the side not to move only sets the error message
    "Select a valid piece": nothing is selected and nothing else changes. *)
Theorem click_on_no_own_piece_reports (st : State) (clicked : string) :
  selectedSquare st = None ->
  (forall found, pieceAt (position (game st)) clicked = Some found ->
                 color found <> sideToMove (position (game st))) ->
  handleSquareClick clicked st = setErrorMessage "Select a valid piece" st /\
  selectedSquare (handleSquareClick clicked st) = None /\
  game (handleSquareClick clicked st) = game st /\
  timers (handleSquareClick clicked st) = timers st.
Proof.
  intros Hsel Hnot.
  assert (Heq : handleSquareClick clicked st
                = setErrorMessage "Select a valid piece" st).
  { unfold handleSquareClick. rewrite Hsel. cbn [JS.strictEq].
    destruct (pieceAt (position (game st)) clicked) as [found|]; [|reflexivity].
    specialize (Hnot found eq_refl).
    destruct (color found), (sideToMove (position (game st)));
      cbn [Color_eqb]; try reflexivity; contradiction. }
  rewrite Heq. repeat split; try reflexivity. exact Hsel.
Qed.

(** X5. With no square selected, a click on a piece of the side to move
    selects its square and changes nothing else (an earlier error message
    stays); a second click on the same square brings the state back to
    what it was. *)
Theorem select_then_deselect (st : State) (clicked : string) (found : Piece) :
  selectedSquare st = None ->
  pieceAt (position (game st)) clicked = Some found ->
  color found = sideToMove (position (game st)) ->
  handleSquareClick clicked st = setSelectedSquare (Some clicked) st /\
  errorMessage (handleSquareClick clicked st) = errorMessage st /\
  handleSquareClick clicked (handleSquareClick clicked st) = st.
Proof.
  intros Hsel Hpiece Hcolor.
  assert (Heq : handleSquareClick clicked st = setSelectedSquare (Some clicked) st).
  { unfold handleSquareClick. rewrite Hsel, Hpiece, Hcolor. cbn [JS.strictEq].
    destruct (sideToMove (position (game st))); reflexivity. }
  rewrite Heq. split; [reflexivity|]. split; [reflexivity|].
  unfold handleSquareClick.
  cbn [selectedSquare setSelectedSquare JS.strictEq].
  rewrite String.eqb_refl.
  destruct st; cbn in *. subst. reflexivity.
Qed.

(** A click on the selected square only clears the selection. *)
Theorem click_selected_square_deselects (st : State) (clicked : string) :
  selectedSquare st = Some clicked ->
  handleSquareClick clicked st = setSelectedSquare None st /\
  game (handleSquareClick clicked st) = game st /\
  moveHistory (handleSquareClick clicked st) = moveHistory st /\
  errorMessage (handleSquareClick clicked st) = errorMessage st /\
  timers (handleSquareClick clicked st) = timers st.
Proof.
  intros Hsel. unfold handleSquareClick. rewrite Hsel.
  cbn [JS.strictEq]. rewrite String.eqb_refl. repeat split; reflexivity.
Qed.

(** What an accepted move leaves in the state. *)
Lemma makeMove_accepted (st : State) (from' to' : string) (mv : Move)
      (next : Position) :
  requestMove (position (game st)) from' to' = Accepted mv next ->
  makeMove from' to' st =
  setTimeout
    {| closedGame := {| position := next;
                        history := (mv, position (game st)) :: history (game st) |};
       closedDifficulty := botDifficulty st |}
    (updateMoveHistory mv ByPlayer
       (setErrorMessage ""
          (setSelectedSquare None
             (setGame {| position := next; history := [] |} st)))).
Proof.
  intros Hok. unfold makeMove, gameMove. rewrite Hok. reflexivity.
Qed.

(** What an accepted reply leaves in the state. *)
Lemma makeBotMove_accepted (st : State) (callback : BotTimer) (rnd : nat)
      (chosen mv : Move) (next : Position) :
  chooseBotMove (closedDifficulty callback) rnd
                (legalMoves (position (closedGame callback))) = Some chosen ->
  replayMove (position (closedGame callback)) chosen = Accepted mv next ->
  makeBotMove callback rnd st =
  updateMoveHistory chosen ByBot
    (setGame {| position := next; history := [] |} st).
Proof.
  intros Hchoice Hok. unfold makeBotMove.
  destruct (legalMoves (position (closedGame callback))) as [|first rest] eqn:Hmoves.
  - discriminate Hchoice.
  - rewrite Hchoice. unfold gameMoveObject. rewrite Hok. reflexivity.
Qed.

(** X6. A complete turn.  With a square selected and no reply pending, a
    click on a cell whose move the engine accepts installs a new instance
    on the resulting position, clears selection and error, opens a history
    row and schedules one reply; when the timer fires, the bot's chosen
    move is made on the position after the player's move, the state gets a
    new instance on the position after the reply, and the reply's notation
    completes the row. *)
Theorem complete_turn (st : State) (selected : string) (cell rnd : nat)
        (mv chosen mv' : Move) (next next' : Position) :
  selectedSquare st = Some selected ->
  selected <> "" ->
  squareName cell <> selected ->
  cell < 64 ->
  timers st = [] ->
  requestMove (position (game st)) selected (squareName cell) = Accepted mv next ->
  chooseBotMove (botDifficulty st) rnd (legalMoves next) = Some chosen ->
  replayMove next chosen = Accepted mv' next' ->
  let row := (JS.numberToString (List.length (moveHistory st) / 2 + 1)
              ++ ". " ++ san mv)%string in
  let st1 := step (SquareClick cell) st in
  let st2 := step (TimerFires rnd) st1 in
  game st1 = {| position := next; history := [] |} /\
  selectedSquare st1 = None /\
  errorMessage st1 = "" /\
  moveHistory st1 = moveHistory st ++ [row] /\
  List.length (timers st1) = 1 /\
  game st2 = {| position := next'; history := [] |} /\
  moveHistory st2 = moveHistory st ++ [(row ++ " " ++ san chosen)%string] /\
  timers st2 = [] /\
  selectedSquare st2 = None /\
  errorMessage st2 = "".
Proof.
  intros Hsel Hne Hother Hcell Hnone Hok Hchoice Hreply row st1 st2.
  assert (Hd1 : dispatch (SquareClick cell) st = makeMove selected (squareName cell) st).
  { cbn [dispatch]. apply Nat.ltb_lt in Hcell. rewrite Hcell.
    apply handleSquareClick_attempts; assumption. }
  rewrite (makeMove_accepted st _ _ mv next Hok) in Hd1.
  destruct (step_frame (SquareClick cell) st) as (Hg1 & Hs1 & Hb1 & He1 & _ & Hm1 & Ht1).
  fold st1 in Hg1, Hs1, Hb1, He1, Hm1, Ht1.
  rewrite Hd1 in Hg1, Hs1, Hb1, He1, Hm1, Ht1.
  read_cells Hg1; read_cells Hs1; read_cells Hb1; read_cells He1;
    read_cells Hm1; read_cells Ht1.
  rewrite Hnone in Ht1. read_cells Ht1.
  assert (Hd2 : dispatch (TimerFires rnd) st1
                = updateMoveHistory chosen ByBot
                    (setGame {| position := next'; history := [] |}
                             (withTimers [] st1))).
  { cbn [dispatch]. rewrite Ht1.
    apply makeBotMove_accepted with (mv := mv');
      cbn [closedGame closedDifficulty position]; assumption. }
  destruct (step_frame (TimerFires rnd) st1) as (Hg2 & Hs2 & _ & He2 & _ & Hm2 & Ht2).
  fold st2 in Hg2, Hs2, He2, Hm2, Ht2.
  rewrite Hd2 in Hg2, Hs2, He2, Hm2, Ht2.
  read_cells Hg2; read_cells Hs2; read_cells He2; read_cells Hm2; read_cells Ht2.
  assert (Hrow : historyAfter mv ByPlayer (moveHistory st) = moveHistory st ++ [row])
    by reflexivity.
  rewrite Hrow in Hm1. rewrite Hm1, historyAfter_bot_snoc in Hm2.
  repeat split; try assumption.
  - rewrite Ht1. reflexivity.
  - rewrite Hs2. exact Hs1.
  - rewrite He2. exact He1.
Qed.

(** X7. A timer that fires on an instance without legal moves (checkmate,
    stalemate) calls no setter: the timer is gone and the state is
    otherwise as it was. *)
Theorem bot_without_moves_is_silent (st : State) (callback : BotTimer)
        (pending : list BotTimer) (rnd : nat) :
  timers st = callback :: pending ->
  legalMoves (position (closedGame callback)) = [] ->
  dispatch (TimerFires rnd) st = withTimers pending st /\
  game (step (TimerFires rnd) st) = game st /\
  moveHistory (step (TimerFires rnd) st) = moveHistory st /\
  timers (step (TimerFires rnd) st) = pending.
Proof.
  intros Htimers Hnone.
  assert (Hd : dispatch (TimerFires rnd) st = withTimers pending st).
  { cbn [dispatch]. rewrite Htimers. unfold makeBotMove. rewrite Hnone. reflexivity. }
  destruct (step_frame (TimerFires rnd) st) as (Hg & _ & _ & _ & _ & Hm & Ht).
  rewrite Hd in Hg, Hm, Ht. repeat split; assumption.
Qed.

(** X8. The reply is chosen at the difficulty level of the render that
    scheduled it: a change of level while the timer is pending changes the
    level shown and nothing of the reply. *)
Theorem reply_uses_scheduled_difficulty (st : State) (level rnd : nat) :
  dispatch (TimerFires rnd) (setBotDifficulty level st)
  = setBotDifficulty level (dispatch (TimerFires rnd) st).
Proof.
  cbn [dispatch timers setBotDifficulty].
  destruct (timers st) as [|callback pending]; [reflexivity|].
  unfold makeBotMove.
  destruct (legalMoves (position (closedGame callback))); [reflexivity|].
  destruct (chooseBotMove (closedDifficulty callback) rnd (m :: l)) as [chosen|];
    [|reflexivity].
  destruct (gameMoveObject (closedGame callback) chosen) as [[mv| |] mutated];
    reflexivity.
Qed.

(** X9. [resetGame] does not cancel a pending reply.  When its timer
    fires after the reset, the reply is made on the position of the
    abandoned game: the state's instance leaves the starting position for
    the position after that reply, and the emptied history gets a row made
    of "undefined" and the reply's notation. *)
Theorem reset_leaves_pending_reply (st : State) (callback : BotTimer)
        (pending : list BotTimer) (rnd : nat) (chosen mv : Move)
        (next : Position) :
  timers st = callback :: pending ->
  chooseBotMove (closedDifficulty callback) rnd
                (legalMoves (position (closedGame callback))) = Some chosen ->
  replayMove (position (closedGame callback)) chosen = Accepted mv next ->
  let st1 := step ResetClick st in
  let st2 := step (TimerFires rnd) st1 in
  timers st1 = callback :: pending /\
  game st1 = newChess /\
  game st2 = {| position := next; history := [] |} /\
  moveHistory st2 = [("undefined " ++ san chosen)%string] /\
  timers st2 = pending.
Proof.
  intros Htimers Hchoice Hreply st1 st2.
  destruct (step_frame ResetClick st) as (Hg1 & _ & _ & _ & _ & Hm1 & Ht1).
  fold st1 in Hg1, Hm1, Ht1. cbn [dispatch] in Hg1, Hm1, Ht1.
  read_cells Hg1; read_cells Hm1; read_cells Ht1. rewrite Htimers in Ht1.
  assert (Hd2 : dispatch (TimerFires rnd) st1
                = updateMoveHistory chosen ByBot
                    (setGame {| position := next; history := [] |}
                             (withTimers pending st1))).
  { cbn [dispatch]. rewrite Ht1.
    apply makeBotMove_accepted with (mv := mv); assumption. }
  destruct (step_frame (TimerFires rnd) st1) as (Hg2 & _ & _ & _ & _ & Hm2 & Ht2).
  fold st2 in Hg2, Hm2, Ht2. rewrite Hd2 in Hg2, Hm2, Ht2.
  read_cells Hg2; read_cells Hm2; read_cells Ht2. rewrite Hm1 in Hm2.
  repeat split; assumption.
Qed.

(** X10. In a session the Undo button has no effect: after any sequence
    of events, the instance in the state is one built by [new Chess(...)]
    on which no move has been made, [game.undo()] returns [null], and the
    state stays as it is. *)
Theorem undo_button_inert_in_session (evs : list Event) :
  history (game (run evs initial)) = [] /\
  undoMove (run evs initial) = run evs initial /\
  step UndoClick (run evs initial) = run evs initial.
Proof.
  destruct (reachable_instance_is_new (run evs initial)) as [Hh Hc].
  { apply reachable_run, reach_initial. }
  assert (Hu : undoMove (run evs initial) = run evs initial).
  { unfold undoMove, gameUndo. rewrite Hh. reflexivity. }
  split; [exact Hh|]. split; [exact Hu|].
  unfold step; cbn [dispatch]. rewrite Hu. unfold render. rewrite Hc. reflexivity.
Qed.

End Turns.

(** ** What a session keeps *)

Section Session.

Context {engine : RulesEngine}.

Lemma session_invariant (st : State) :
  reachable st ->
  (selectedSquare st = None \/
   exists cell, cell < 64 /\ selectedSquare st = Some (squareName cell)) /\
  botDifficulty st < 4 /\
  (forall callback, In callback (timers st) ->
                    history (closedGame callback) <> [] /\
                    closedDifficulty callback < 4).
Proof.
  induction 1 as [|ev st _ (IHs & IHb & IHt)].
  - unfold initial.
    destruct (render_frame mounted) as (_ & Hs & Hb & _ & _ & _ & Ht & _).
    rewrite Hs, Hb, Ht. cbn [mounted selectedSquare botDifficulty timers].
    split; [left; reflexivity|]. split; [lia|]. intros callback [].
  - destruct (step_frame ev st) as (_ & Hs & Hb & _ & _ & _ & Ht).
    rewrite Hs, Hb, Ht. clear Hs Hb Ht.
    destruct ev as [cell|rnd| | |level|]; cbn [dispatch].
    + destruct (Nat.ltb_spec cell 64) as [Hcell|_];
        [|split; [|split]; assumption].
      unfold handleSquareClick.
      destruct (JS.strictEq (selectedSquare st) (squareName cell)).
      { cbn [setSelectedSquare selectedSquare botDifficulty timers].
        split; [left; reflexivity|]. split; assumption. }
      assert (Hother :
                let st' :=
                  match pieceAt (position (game st)) (squareName cell) with
                  | Some found =>
                      if Color_eqb (color found) (sideToMove (position (game st)))
                      then setSelectedSquare (Some (squareName cell)) st
                      else setErrorMessage "Select a valid piece" st
                  | None => setErrorMessage "Select a valid piece" st
                  end in
                (selectedSquare st' = None \/
                 exists c, c < 64 /\ selectedSquare st' = Some (squareName c)) /\
                botDifficulty st' < 4 /\
                (forall callback, In callback (timers st') ->
                                  history (closedGame callback) <> [] /\
                                  closedDifficulty callback < 4)).
      { cbn zeta.
        destruct (pieceAt (position (game st)) (squareName cell)) as [found|];
          [destruct (Color_eqb (color found) (sideToMove (position (game st))))|];
          cbn [setSelectedSquare setErrorMessage selectedSquare botDifficulty timers];
          (split; [|split; assumption]); try assumption.
        right. exists cell. split; [assumption | reflexivity]. }
      destruct (selectedSquare st) as [selected|]; [|exact Hother].
      destruct (JS.truthy (Some selected)); [|exact Hother].
      unfold makeMove, gameMove.
      destruct (requestMove (position (game st)) selected (squareName cell))
        as [mv next| |];
        cbn [fst snd setGame setSelectedSquare setErrorMessage updateMoveHistory
             setMoveHistory setTimeout selectedSquare botDifficulty timers];
        (split; [left; reflexivity|]); (split; [assumption|]); try assumption.
      intros callback Hin. apply in_app_or in Hin.
      destruct Hin as [Hin | [Hin | []]]; [apply IHt; assumption|].
      subst callback. cbn [closedGame closedDifficulty history].
      split; [discriminate | assumption].
    + destruct (timers st) as [|callback pending] eqn:Htimers;
        [split; [|split]; try assumption; rewrite Htimers; assumption|].
      assert (Hpending : forall c, In c pending ->
                                   history (closedGame c) <> [] /\
                                   closedDifficulty c < 4).
      { intros c Hc. apply IHt. right. exact Hc. }
      unfold makeBotMove.
      destruct (legalMoves (position (closedGame callback)));
        [cbn [withTimers selectedSquare botDifficulty timers];
         split; [|split]; assumption|].
      destruct (chooseBotMove (closedDifficulty callback) rnd (m :: l)) as [chosen|];
        [|cbn [withTimers selectedSquare botDifficulty timers];
          split; [|split]; assumption].
      destruct (gameMoveObject (closedGame callback) chosen) as [[mv| |] mutated];
        cbn [withTimers setGame updateMoveHistory setMoveHistory
             selectedSquare botDifficulty timers];
        (split; [|split]); assumption.
    + cbn [resetGame setGame setSelectedSquare setMoveHistory setGameStatus
           setErrorMessage selectedSquare botDifficulty timers].
      split; [left; reflexivity|]. split; assumption.
    + unfold undoMove.
      destruct (gameUndo (game st)) as [[undone|] once];
        cbn [setGame setMoveHistory selectedSquare botDifficulty timers];
        (split; [|split]); assumption.
    + destruct (Nat.ltb_spec level (List.length difficultyLevels)) as [Hlevel|_];
        cbn [setBotDifficulty selectedSquare botDifficulty timers];
        (split; [|split]); assumption.
    + cbn [toggleDarkMode setDarkMode selectedSquare botDifficulty timers].
      split; [|split]; assumption.
Qed.

(** X11. After any sequence of events, the selection is empty or names
    one of the 64 cells, the difficulty level is one of the four, and every
    pending reply closes over an instance on which a move has been made,
    with one of the four levels. *)
Theorem session_keeps_selection_and_level (evs : list Event) :
  (selectedSquare (run evs initial) = None \/
   exists cell, cell < 64 /\
                selectedSquare (run evs initial) = Some (squareName cell)) /\
  botDifficulty (run evs initial) < List.length difficultyLevels /\
  (forall callback, In callback (timers (run evs initial)) ->
                    history (closedGame callback) <> [] /\
                    closedDifficulty callback < List.length difficultyLevels).
Proof.
  apply session_invariant, reachable_run, reach_initial.
Qed.

(** X12. Only a click on the board or on Reset changes the selection or
    the error message: the bot's reply, Undo, a change of level and the
    dark-mode switch leave both as they are. *)
Theorem selection_and_error_change_on_clicks_only (ev : Event) (st : State) :
  (forall cell, ev <> SquareClick cell) ->
  ev <> ResetClick ->
  selectedSquare (step ev st) = selectedSquare st /\
  errorMessage (step ev st) = errorMessage st.
Proof.
  intros Hclick Hreset.
  destruct (step_frame ev st) as (_ & Hs & _ & He & _).
  rewrite Hs, He. clear Hs He.
  destruct ev as [cell|rnd| | |level|]; cbn [dispatch].
  - exfalso. apply (Hclick cell). reflexivity.
  - destruct (timers st) as [|callback pending]; [split; reflexivity|].
    unfold makeBotMove.
    destruct (legalMoves (position (closedGame callback))); [split; reflexivity|].
    destruct (chooseBotMove (closedDifficulty callback) rnd (m :: l)) as [chosen|];
      [|split; reflexivity].
    destruct (gameMoveObject (closedGame callback) chosen) as [[mv| |] mutated];
      split; reflexivity.
  - contradiction.
  - unfold undoMove.
    destruct (gameUndo (game st)) as [[undone|] once]; split; reflexivity.
  - destruct (level <? List.length difficultyLevels)%nat; split; reflexivity.
  - split; reflexivity.
Qed.

(** X13. The dark-mode switch is its own inverse and has no effect on
    behaviour: every event acts on the switched state as on the original
    one. *)
Theorem dark_mode_is_cosmetic (ev : Event) (st : State) :
  toggleDarkMode (toggleDarkMode st) = st /\
  dispatch ev (toggleDarkMode st) = toggleDarkMode (dispatch ev st).
Proof.
  split.
  - unfold toggleDarkMode. destruct st; cbn. rewrite negb_involutive. reflexivity.
  - destruct ev as [cell|rnd| | |level|]; cbn [dispatch].
    + destruct (cell <? 64)%nat; [|reflexivity].
      unfold handleSquareClick, toggleDarkMode.
      cbn [selectedSquare game setDarkMode].
      destruct (JS.strictEq (selectedSquare st) (squareName cell)); [reflexivity|].
      destruct (selectedSquare st) as [selected|].
      * destruct (JS.truthy (Some selected)).
        -- unfold makeMove. cbn [game setDarkMode].
           destruct (gameMove (game st) selected (squareName cell))
             as [[mv| |] mutated]; reflexivity.
        -- destruct (pieceAt (position (game st)) (squareName cell)) as [found|];
             [destruct (Color_eqb (color found) (sideToMove (position (game st))))|];
             reflexivity.
      * destruct (pieceAt (position (game st)) (squareName cell)) as [found|];
          [destruct (Color_eqb (color found) (sideToMove (position (game st))))|];
          reflexivity.
    + unfold toggleDarkMode. cbn [timers setDarkMode].
      destruct (timers st) as [|callback pending]; [reflexivity|].
      unfold makeBotMove.
      destruct (legalMoves (position (closedGame callback))); [reflexivity|].
      destruct (chooseBotMove (closedDifficulty callback) rnd (m :: l)) as [chosen|];
        [|reflexivity].
      destruct (gameMoveObject (closedGame callback) chosen) as [[mv| |] mutated];
        reflexivity.
    + reflexivity.
    + unfold undoMove, toggleDarkMode. cbn [game setDarkMode].
      destruct (gameUndo (game st)) as [[undone|] once]; reflexivity.
    + destruct (level <? List.length difficultyLevels)%nat; reflexivity.
    + reflexivity.
Qed.

End Session.

(** ** Status and material *)

Section StatusAndMaterial.

Context {engine : RulesEngine}.

(** X14. The "Game Over" panel is shown after [checkGameStatus] exactly
    when one of the five terminal predicates of the engine holds;
    [checkGameStatus] writes the status cell only. *)
Theorem game_over_panel_iff_terminal (st : State) :
  gameOverShown (checkGameStatus st)
  = (isCheckmate (game st) || isDraw (game st) || isStalemate (game st)
     || isThreefoldRepetition (game st) || isInsufficientMaterial (game st)) /\
  exists status, checkGameStatus st = setGameStatus status st.
Proof.
  unfold checkGameStatus, gameOverShown.
  destruct (isCheckmate (game st)).
  - split; [|eexists; reflexivity].
    destruct (Color_eqb (sideToMove (position (game st))) White); reflexivity.
  - destruct (isDraw (game st)); [split; [reflexivity | eexists; reflexivity]|].
    destruct (isStalemate (game st)); [split; [reflexivity | eexists; reflexivity]|].
    destruct (isThreefoldRepetition (game st));
      [split; [reflexivity | eexists; reflexivity]|].
    destruct (isInsufficientMaterial (game st));
      split; try reflexivity; eexists; reflexivity.
Qed.

(** X15. On checkmate the status names as winner the side that is not to
    move, whatever the draw predicates say; without checkmate, a position
    the engine calls a draw is reported as "Draw!", so that the stalemate,
    repetition and insufficient-material messages are left for positions
    the engine does not call a draw. *)
Theorem status_priorities (st : State) :
  (isCheckmate (game st) = true ->
   gameStatus (checkGameStatus st)
   = match sideToMove (position (game st)) with
     | White => "Checkmate! Black wins!"
     | Black => "Checkmate! White wins!"
     end) /\
  (isCheckmate (game st) = false -> isDraw (game st) = true ->
   gameStatus (checkGameStatus st) = "Draw!") /\
  (gameStatus (checkGameStatus st) = "Stalemate!" \/
   gameStatus (checkGameStatus st) = "Draw by threefold repetition!" \/
   gameStatus (checkGameStatus st) = "Draw by insufficient material!" ->
   isCheckmate (game st) = false /\ isDraw (game st) = false).
Proof.
  unfold checkGameStatus.
  destruct (isCheckmate (game st)).
  - split; [|split]; try discriminate.
    + intros _. destruct (sideToMove (position (game st))); reflexivity.
    + destruct (Color_eqb (sideToMove (position (game st))) White);
        cbn; intros [H | [H | H]]; discriminate H.
  - destruct (isDraw (game st)).
    + split; [discriminate|]. split; [reflexivity|].
      cbn; intros [H | [H | H]]; discriminate H.
    + split; [discriminate|]. split; [discriminate|]. intros _. split; reflexivity.
Qed.

(** The scan of one row adds to the two scores, at most 9 for each
    piece. *)
Lemma countPiece_bounds (cells : list (option Piece)) :
  forall scores,
    (fst scores <= fst (fold_left countPiece cells scores))%Z /\
    (snd scores <= snd (fold_left countPiece cells scores))%Z /\
    (fst (fold_left countPiece cells scores) + snd (fold_left countPiece cells scores)
     <= fst scores + snd scores
        + 9 * Z.of_nat
                (List.length
                   (filter (fun cell => match cell with Some _ => true | None => false end)
                           cells)))%Z.
Proof.
  induction cells as [|cell cells IH]; intro scores.
  - cbn. lia.
  - cbn [fold_left filter].
    destruct (IH (countPiece scores cell)) as (Hw & Hb & Hsum).
    unfold countPiece in Hw, Hb, Hsum |- *.
    destruct cell as [[[] []]|]; cbn [Color_eqb color type fst snd pieceValues List.length] in *;
      lia.
Qed.

Lemma materialScores_concat (board : Board) :
  forall scores,
    fold_left (fun acc row => fold_left countPiece row acc) board scores
    = fold_left countPiece (List.concat board) scores.
Proof.
  induction board as [|row board IH]; intro scores; cbn [fold_left List.concat].
  - reflexivity.
  - rewrite fold_left_app. apply IH.
Qed.

Lemma materialScores_bounds (board : Board) :
  (0 <= fst (materialScores board))%Z /\
  (0 <= snd (materialScores board))%Z /\
  (fst (materialScores board) + snd (materialScores board)
   <= 9 * Z.of_nat (pieceCount board))%Z.
Proof.
  unfold materialScores, pieceCount. rewrite materialScores_concat.
  destruct (countPiece_bounds (List.concat board) (0, 0)%Z) as (Hw & Hb & Hsum).
  cbn [fst snd] in *. lia.
Qed.

Lemma countPiece_commutes (scores : Z * Z) (a b : option Piece) :
  countPiece (countPiece scores a) b = countPiece (countPiece scores b) a.
Proof.
  unfold countPiece.
  destruct a as [[[] ta]|], b as [[[] tb]|]; cbn [Color_eqb color type fst snd];
    try reflexivity; apply injective_projections; cbn [fst snd]; lia.
Qed.

Lemma countPiece_permutation (cells cells' : list (option Piece)) :
  Permutation cells cells' ->
  forall scores, fold_left countPiece cells scores = fold_left countPiece cells' scores.
Proof.
  induction 1 as [|x l l' _ IH|x y l|l l' l'' _ IH1 _ IH2]; intro scores;
    cbn [fold_left].
  - reflexivity.
  - apply IH.
  - rewrite countPiece_commutes. reflexivity.
  - rewrite IH1. apply IH2.
Qed.

(** X16. The material scores depend on which pieces are on the board, not
    on where they stand: two boards whose cells are a rearrangement of one
    another have the same scores. *)
Theorem materialScores_rearranged (board board' : Board) :
  Permutation (List.concat board) (List.concat board') ->
  materialScores board = materialScores board'.
Proof.
  intros Hperm. unfold materialScores. rewrite !materialScores_concat.
  apply countPiece_permutation, Hperm.
Qed.

(** The exhaustive comparison of the floating-point percentage with the
    exact one, for all the totals the 32 pieces of a game can reach. *)
Lemma percentages_checked : percentagesChecked 288 = true.
Proof. vm_cast_no_check (eq_refl true). Qed.

Lemma zrange_In (count : nat) :
  forall start z,
    (start <= z < start + Z.of_nat count)%Z -> In z (zrange count start).
Proof.
  induction count as [|count IH]; intros start z Hz; [lia|].
  cbn [zrange]. destruct (Z.eq_dec start z) as [Heq|Hne].
  - left. exact Heq.
  - right. apply IH. lia.
Qed.

(** What the check gives for one pair of scores, for any bound. *)
Lemma percentage_of_checked (n : nat) (whiteScore blackScore : Z) :
  percentagesChecked n = true ->
  (0 <= whiteScore)%Z -> (0 <= blackScore)%Z ->
  (0 < whiteScore + blackScore <= Z.of_nat n)%Z ->
  exists k, isPercent whiteScore blackScore k = true.
Proof.
  intros Hall Hw Hb Ht.
  unfold percentagesChecked in Hall.
  rewrite forallb_forall in Hall.
  specialize (Hall whiteScore).
  assert (Hin : In whiteScore (zrange (S n) 0%Z)) by (apply zrange_In; lia).
  specialize (Hall Hin). rewrite forallb_forall in Hall.
  specialize (Hall blackScore).
  assert (Hin' : In blackScore (zrange (S n - Z.to_nat whiteScore) 0%Z))
    by (apply zrange_In; lia).
  specialize (Hall Hin').
  destruct (Z.eqb_spec (whiteScore + blackScore) 0) as [H0|_]; [lia|].
  apply orb_true_iff in Hall. destruct Hall as [H | H]; eexists; exact H.
Qed.

Lemma percentage_of_scores (whiteScore blackScore : Z) :
  (0 <= whiteScore)%Z -> (0 <= blackScore)%Z ->
  (0 < whiteScore + blackScore <= 288)%Z ->
  exists k, isPercent whiteScore blackScore k = true.
Proof.
  intros Hw Hb Ht.
  assert (Hbound : Z.of_nat 288 = 288%Z) by reflexivity.
  apply (percentage_of_checked 288 whiteScore blackScore percentages_checked Hw Hb).
  rewrite Hbound. exact Ht.
Qed.

(** X17. On a board of at most 32 pieces with material on it, the white
    probability [calculateWinProbability] stores is a whole number between
    0 and 100 nearest to the exact percentage
    [100 * whiteScore / totalScore], the black probability is its
    complement, and the two add up to 100; the point difference is
    [whiteScore - blackScore]. *)
Theorem win_probability_is_nearest_percent (st : State) :
  let whiteScore := fst (materialScores (boardOf (position (game st)))) in
  let blackScore := snd (materialScores (boardOf (position (game st)))) in
  let stored := calculateWinProbability st in
  pieceCount (boardOf (position (game st))) <= 32 ->
  (whiteScore + blackScore <> 0)%Z ->
  exists k,
    (0 <= k <= 100)%Z /\
    (2 * Z.abs (k * (whiteScore + blackScore) - 100 * whiteScore)
     <= whiteScore + blackScore)%Z /\
    PrimFloat.eqb (white (winProbability stored)) (JS.ofZ k) = true /\
    PrimFloat.eqb (black (winProbability stored)) (JS.ofZ (100 - k)) = true /\
    PrimFloat.eqb (PrimFloat.add (white (winProbability stored))
                                 (black (winProbability stored))) 100%float = true /\
    pointDifference stored = (whiteScore - blackScore)%Z.
Proof.
  intros whiteScore blackScore stored Hcells Hmaterial.
  destruct (materialScores_bounds (boardOf (position (game st)))) as (Hw & Hb & Hsum).
  fold whiteScore blackScore in Hw, Hb, Hsum.
  destruct (percentage_of_scores whiteScore blackScore) as [k Hk]; try lia.
  exists k. unfold isPercent in Hk.
  repeat (apply andb_true_iff in Hk; destruct Hk as [Hk ?]).
  apply Z.leb_le in Hk.
  repeat match goal with H : (_ <=? _)%Z = true |- _ => apply Z.leb_le in H end.
  subst stored. unfold calculateWinProbability.
  cbn [winProbability pointDifference setWinProbability setPointDifference].
  fold whiteScore blackScore.
  repeat split; assumption.
Qed.

(** X18. After [calculateWinProbability], the point-difference line says
    "Even" exactly when the two material scores are equal, and otherwise
    names the side with the higher score and the margin. *)
Theorem point_difference_line (st : State) :
  let whiteScore := fst (materialScores (boardOf (position (game st)))) in
  let blackScore := snd (materialScores (boardOf (position (game st)))) in
  let line := pointDifferenceLine (calculateWinProbability st) in
  (line = Even <-> whiteScore = blackScore) /\
  ((blackScore < whiteScore)%Z -> line = WhiteAhead (whiteScore - blackScore)) /\
  ((whiteScore < blackScore)%Z -> line = BlackAhead (blackScore - whiteScore)).
Proof.
  cbn zeta. unfold pointDifferenceLine, calculateWinProbability.
  cbn [pointDifference setWinProbability setPointDifference].
  set (w := fst (materialScores (boardOf (position (game st))))).
  set (b := snd (materialScores (boardOf (position (game st))))).
  destruct (Z.gtb_spec (w - b) 0) as [Hgt|Hle].
  - split; [split; [discriminate | lia]|]. split; [reflexivity | lia].
  - destruct (Z.ltb_spec (w - b) 0) as [Hlt|Hge].
    + split; [split; [discriminate | lia]|]. split; [lia|].
      intros _. f_equal. lia.
    + split; [split; [lia | reflexivity]|]. split; lia.
Qed.

End StatusAndMaterial.

(** ** The board and the history panel *)

Section Panels.

Context {engine : RulesEngine}.

Variable movesFrom : Position -> string -> list Move.

(** Two cells show the same square only when they are the same cell. *)
Lemma squareName_eqb (i j : nat) :
  i < 64 -> j < 64 ->
  String.eqb (squareName i) (squareName j) = (i =? j)%nat.
Proof.
  intros Hi Hj.
  assert (Hall : forallb
                   (fun a => forallb
                               (fun b => Bool.eqb (String.eqb (squareName a) (squareName b))
                                                  (a =? b)%nat)
                               (seq 0 64))
                   (seq 0 64) = true) by (vm_compute; reflexivity).
  rewrite forallb_forall in Hall.
  specialize (Hall i). rewrite forallb_forall in Hall.
  apply eqb_prop, Hall; apply in_seq; lia.
Qed.

Lemma cells_checked (check : nat -> bool) :
  forallb check (seq 0 64) = true -> forall i, i < 64 -> check i = true.
Proof.
  intros Hall i Hi. rewrite forallb_forall in Hall. apply Hall, in_seq. lia.
Qed.

(** X19. The 64 cells show 64 different squares, each named by two
    characters; hence, when the selection is the square of a cell, that
    cell and no other is drawn as selected. *)
Theorem cells_show_distinct_squares (st : State) (i j : nat) :
  i < 64 -> j < 64 ->
  (square (renderSquare movesFrom st i) = square (renderSquare movesFrom st j)
   -> i = j) /\
  String.length (square (renderSquare movesFrom st i)) = 2 /\
  (selectedSquare st = Some (squareName j) ->
   isSelected (renderSquare movesFrom st i) = (i =? j)%nat).
Proof.
  intros Hi Hj. cbn [renderSquare square isSelected].
  split; [|split].
  - intros Heq. apply Nat.eqb_eq. rewrite <- squareName_eqb by assumption.
    apply String.eqb_eq, Heq.
  - apply Nat.eqb_eq.
    apply (cells_checked (fun c => String.length (squareName c) =? 2)%nat);
      [vm_compute; reflexivity | assumption].
  - intros Hsel. rewrite Hsel. cbn [JS.strictEq].
    rewrite squareName_eqb by assumption. apply Nat.eqb_sym.
Qed.

(** X20. With a suggestion from the square of one cell to the square of
    another, exactly those two cells are drawn as suggested; with nothing
    selected, no cell is drawn as a legal destination. *)
Theorem highlighted_cells (st : State) (i : nat) :
  i < 64 ->
  (forall suggested a b,
      suggestedMove st = Some suggested ->
      a < 64 -> b < 64 ->
      from suggested = squareName a -> to suggested = squareName b ->
      isSuggested (renderSquare movesFrom st i) = ((i =? a) || (i =? b))%nat) /\
  (suggestedMove st = None -> isSuggested (renderSquare movesFrom st i) = false) /\
  (selectedSquare st = None -> isLegal (renderSquare movesFrom st i) = false).
Proof.
  intros Hi. cbn [renderSquare isSuggested isLegal]. split; [|split].
  - intros suggested a b Hs Ha Hb Hfrom Hto. rewrite Hs, Hfrom, Hto.
    rewrite !squareName_eqb by assumption.
    rewrite (Nat.eqb_sym a i), (Nat.eqb_sym b i). reflexivity.
  - intros Hs. rewrite Hs. reflexivity.
  - intros Hs. rewrite Hs. reflexivity.
Qed.

(** X21. On the 64 cells the rank computed by the earlier revision,
    [Math.floor((63 - i) / 8) + 1], is the rank [renderSquare] computes,
    [8 - Math.floor(i / 8)]: a number from 1 to 8 that falls by one from
    each row of cells to the next. *)
Theorem rank_formulas_agree (i : nat) :
  i < 64 ->
  rankEarlier i = rankOf i /\
  1 <= rankOf i <= 8 /\
  (i < 56 -> rankOf (i + 8) + 1 = rankOf i).
Proof.
  intros Hi. unfold rankEarlier, rankOf.
  pose proof (Nat.div_mod_eq i 8) as Hd.
  pose proof (Nat.mod_upper_bound i 8) as Hm.
  pose proof (Nat.div_mod_eq (63 - i) 8) as Hd'.
  pose proof (Nat.mod_upper_bound (63 - i) 8) as Hm'.
  pose proof (Nat.div_mod_eq (i + 8) 8) as Hd''.
  pose proof (Nat.mod_upper_bound (i + 8) 8) as Hm''.
  lia.
Qed.

(** X22. The cells are shaded like a chessboard: a cell and its right
    neighbour in the row, and a cell and the cell below it, never have the
    same background. *)
Theorem shading_alternates (i : nat) :
  i < 64 ->
  (i mod 8 < 7 -> shaded (i + 1) = negb (shaded i)) /\
  (i < 56 -> shaded (i + 8) = negb (shaded i)).
Proof.
  intros Hi.
  pose proof (cells_checked
                (fun c => (if (c mod 8 <? 7)%nat
                           then Bool.eqb (shaded (c + 1)) (negb (shaded c))
                           else true)
                          && (if (c <? 56)%nat
                              then Bool.eqb (shaded (c + 8)) (negb (shaded c))
                              else true))
                ltac:(vm_compute; reflexivity) i Hi) as Hc.
  cbn beta in Hc. apply andb_true_iff in Hc. destruct Hc as [Hright Hbelow].
  split.
  - intros Hcol. apply Nat.ltb_lt in Hcol. rewrite Hcol in Hright.
    apply eqb_prop, Hright.
  - intros Hrow. apply Nat.ltb_lt in Hrow. rewrite Hrow in Hbelow.
    apply eqb_prop, Hbelow.
Qed.

End Panels.

Section HistoryPanel.

Lemma append_assoc (a b c : string) :
  ((a ++ b) ++ c = a ++ (b ++ c))%string.
Proof.
  induction a as [|ch a IH]; cbn; [reflexivity | rewrite IH; reflexivity].
Qed.

Lemma includes_append (a b : string) (c : ascii) :
  JS.includes (a ++ b) c = JS.includes a c || JS.includes b c.
Proof.
  induction a as [|ch a IH]; cbn; [reflexivity|].
  rewrite IH. apply orb_assoc.
Qed.

Lemma numberToString_no_space (n : nat) :
  JS.includes (JS.numberToString n) " " = false.
Proof.
  unfold JS.numberToString.
  induction (Nat.to_uint n) as [|d IH|d IH|d IH|d IH|d IH|d IH|d IH|d IH|d IH|d IH];
    cbn; auto.
Qed.

Lemma split_no_space (a : string) :
  JS.includes a " " = false -> split a = [a].
Proof.
  induction a as [|ch a IH]; cbn [JS.includes split]; intros Hno.
  - reflexivity.
  - apply orb_false_iff in Hno. destruct Hno as [Hch Ha].
    rewrite Hch, (IH Ha). reflexivity.
Qed.

Lemma split_at_space (a rest : string) :
  JS.includes a " " = false ->
  split (a ++ String " " rest) = a :: split rest.
Proof.
  induction a as [|ch a IH]; cbn [JS.includes split append]; intros Hno.
  - reflexivity.
  - apply orb_false_iff in Hno. destruct Hno as [Hch Ha].
    rewrite Hch, (IH Ha). reflexivity.
Qed.

(** What the panel draws of a row that starts with a label and a
    notation. *)
Lemma historyRow_of_row (n : nat) (notation tail : string) :
  JS.includes notation " " = false ->
  notation <> "" ->
  historyRow (JS.numberToString n ++ ". " ++ notation)
  = ((JS.numberToString n ++ ".")%string, Some notation) /\
  historyRow ((JS.numberToString n ++ ". " ++ notation) ++ " " ++ tail)
  = ((JS.numberToString n ++ ".")%string, Some notation).
Proof.
  intros Hno Hne.
  assert (Hlabel : JS.includes (JS.numberToString n ++ ".") " " = false).
  { rewrite includes_append, numberToString_no_space. reflexivity. }
  assert (Hshape : forall rest,
             (JS.numberToString n ++ ". " ++ rest
              = (JS.numberToString n ++ ".") ++ String " " rest)%string).
  { intro rest. rewrite append_assoc. reflexivity. }
  assert (Htruthy : JS.truthy (Some notation) = true).
  { cbn [JS.truthy]. destruct (String.eqb_spec notation ""); [contradiction|reflexivity]. }
  unfold historyRow. split.
  - rewrite Hshape, (split_at_space _ _ Hlabel), (split_no_space _ Hno).
    cbn [nth_error JS.interpolate]. rewrite Htruthy. reflexivity.
  - rewrite Hshape, append_assoc.
    change (String " " notation ++ " " ++ tail)%string
      with (String " " (notation ++ String " " tail)).
    rewrite (split_at_space _ _ Hlabel), (split_at_space _ _ Hno).
    cbn [nth_error JS.interpolate]. rewrite Htruthy. reflexivity.
Qed.

(** X23. The history panel draws the first two space-separated pieces of
    a row: the label and the player's move (a notation without a space).
    The bot's reply, merged into the row as a third piece, is not drawn:
    the panel shows the same after the reply as before it. *)
Theorem history_panel_omits_reply (rows : list string) (mv reply : Move) :
  JS.includes (san mv) " " = false ->
  san mv <> "" ->
  let label := (JS.numberToString (List.length rows / 2 + 1) ++ ".")%string in
  map historyRow (historyAfter mv ByPlayer rows)
  = map historyRow rows ++ [(label, Some (san mv))] /\
  map historyRow (historyAfter reply ByBot (historyAfter mv ByPlayer rows))
  = map historyRow (historyAfter mv ByPlayer rows).
Proof.
  intros Hno Hne label.
  destruct (historyRow_of_row (List.length rows / 2 + 1) (san mv) (san reply)
                              Hno Hne) as [Hrow Hrow'].
  assert (Hplayer : historyAfter mv ByPlayer rows
                    = rows ++ [(JS.numberToString (List.length rows / 2 + 1)
                                ++ ". " ++ san mv)%string]) by reflexivity.
  rewrite Hplayer, historyAfter_bot_snoc, !map_app. cbn [map].
  rewrite Hrow, Hrow'. split; reflexivity.
Qed.

(** X24. The row [undoMove] drops with [slice(0, -1)] is the row the last
    turn added, whether the bot has completed it or not; and a reply that
    finds the history empty writes a row that starts with "undefined". *)
Theorem slice_drops_last_turn (rows : list string) (mv reply : Move) :
  JS.sliceButLast (historyAfter mv ByPlayer rows) = rows /\
  JS.sliceButLast (historyAfter reply ByBot (historyAfter mv ByPlayer rows)) = rows /\
  List.length (historyAfter reply ByBot (historyAfter mv ByPlayer rows))
  = List.length (historyAfter mv ByPlayer rows) /\
  historyAfter reply ByBot [] = [("undefined " ++ san reply)%string].
Proof.
  assert (Hplayer : historyAfter mv ByPlayer rows
                    = rows ++ [(JS.numberToString (List.length rows / 2 + 1)
                                ++ ". " ++ san mv)%string]) by reflexivity.
  rewrite Hplayer, historyAfter_bot_snoc. unfold JS.sliceButLast.
  rewrite !removelast_last, !length_app. repeat split; reflexivity.
Qed.

End HistoryPanel.

(** ** The further properties on concrete inputs *)

Lemma bot_choice_is_legal_witness :
  1 < List.length [Script.Nf3; Script.exd6; Script.castles] /\
  exists chosen,
    chooseBotMove 2 1 [Script.Nf3; Script.exd6; Script.castles] = Some chosen /\
    In chosen [Script.Nf3; Script.exd6; Script.castles].
Proof.
  split.
  - cbn. lia.
  - apply (bot_choice_is_legal 2 1 [Script.Nf3; Script.exd6; Script.castles]).
    cbn. lia.
Defined.

Lemma beginner_intermediate_alike_witness :
  chooseBotMove 7 1 [Script.f3; Script.e4] = chooseBotMove 0 1 [Script.f3; Script.e4] /\
  chooseBotMove 7 1 [Script.f3; Script.e4] = chooseBotMove 1 1 [Script.f3; Script.e4] /\
  ([Script.f3; Script.e4] <> [] ->
   chooseBotMove 7 1 [Script.f3; Script.e4] = nth_error [Script.f3; Script.e4] 1).
Proof.
  apply (beginner_intermediate_alike 7 1 [Script.f3; Script.e4]); discriminate.
Defined.

Lemma advanced_without_capture_plays_draw_witness :
  (forall m, In m [Script.Nf3; Script.castles] -> isCapture m = false) /\
  chooseBotMove 2 1 [Script.Nf3; Script.castles] = Some Script.castles.
Proof.
  assert (Hnone : forall m, In m [Script.Nf3; Script.castles] -> isCapture m = false).
  { intros m [Hm | [Hm | []]]; subst m; reflexivity. }
  split; [exact Hnone|].
  apply (advanced_without_capture_plays_draw 1 [Script.Nf3; Script.castles] Hnone).
Defined.

Lemma suggestMove_stores_first_highest_witness :
  @legalMoves scriptedEngine (position (game scriptedStart)) <> [] /\
  exists best before after,
    suggestMove scriptedStart = setSuggestedMove (Some best) scriptedStart /\
    @legalMoves scriptedEngine (position (game scriptedStart)) = before ++ best :: after /\
    (forall m, In m before -> (moveScore m < moveScore best)%Z) /\
    (forall m, In m after -> (moveScore m <= moveScore best)%Z).
Proof.
  split.
  - vm_compute. discriminate.
  - apply (suggestMove_stores_first_highest scriptedStart).
    vm_compute. discriminate.
Defined.

Lemma click_on_no_own_piece_reports_witness :
  selectedSquare scriptedStart = None /\
  @pieceAt scriptedEngine (position (game scriptedStart)) "e5" = None /\
  handleSquareClick "e5" scriptedStart
  = setErrorMessage "Select a valid piece" scriptedStart.
Proof.
  split; [reflexivity|]. split; [reflexivity|].
  apply (click_on_no_own_piece_reports scriptedStart "e5").
  - reflexivity.
  - intros found Hfound. vm_compute in Hfound. discriminate Hfound.
Defined.

Lemma select_then_deselect_witness :
  selectedSquare scriptedStart = None /\
  @pieceAt scriptedEngine (position (game scriptedStart)) "e2"
  = Some (mkPiece White Pawn) /\
  selectedSquare (handleSquareClick "e2" scriptedStart) = Some "e2" /\
  handleSquareClick "e2" (handleSquareClick "e2" scriptedStart) = scriptedStart.
Proof.
  split; [reflexivity|]. split; [reflexivity|].
  destruct (select_then_deselect scriptedStart "e2" (mkPiece White Pawn))
    as (Hsel & _ & Hback).
  - reflexivity.
  - reflexivity.
  - reflexivity.
  - split; [rewrite Hsel; reflexivity | exact Hback].
Defined.

Lemma click_selected_square_deselects_witness :
  selectedSquare e2Selected = Some "e2" /\
  handleSquareClick "e2" e2Selected = setSelectedSquare None e2Selected.
Proof.
  split; [reflexivity|].
  apply (click_selected_square_deselects e2Selected "e2"). reflexivity.
Defined.

Lemma complete_turn_witness :
  selectedSquare e2Selected = Some "e2" /\
  timers e2Selected = [] /\
  position (game (step (TimerFires 0)
                       (step (SquareClick (Script.cell "e4")) e2Selected))) = 2 /\
  moveHistory (step (TimerFires 0)
                    (step (SquareClick (Script.cell "e4")) e2Selected))
  = ["1. e4 e5"].
Proof.
  split; [reflexivity|]. split; [reflexivity|].
  destruct (complete_turn e2Selected "e2" (Script.cell "e4") 0
                          Script.e4 Script.e5 Script.e5 1 2)
    as (_ & _ & _ & _ & _ & Hg & Hm & _).
  - reflexivity.
  - discriminate.
  - vm_compute. discriminate.
  - vm_compute. lia.
  - reflexivity.
  - reflexivity.
  - reflexivity.
  - reflexivity.
  - split.
    + rewrite Hg. reflexivity.
    + rewrite Hm. reflexivity.
Defined.

Lemma bot_without_moves_is_silent_witness :
  timers lastTimerPending
  = [mkBotTimer (@mkChess (@Position scriptedEngine) 4 [(Script.Qh4, 3)]) 0] /\
  @legalMoves scriptedEngine 4 = [] /\
  game (step (TimerFires 0) lastTimerPending) = game lastTimerPending /\
  moveHistory (step (TimerFires 0) lastTimerPending) = moveHistory lastTimerPending /\
  timers (step (TimerFires 0) lastTimerPending) = [].
Proof.
  split; [reflexivity|]. split; [reflexivity|].
  apply (bot_without_moves_is_silent
           lastTimerPending
           (mkBotTimer (@mkChess (@Position scriptedEngine) 4 [(Script.Qh4, 3)]) 0)
           [] 0).
  - reflexivity.
  - reflexivity.
Defined.

Lemma reset_leaves_pending_reply_witness :
  timers replyPending
  = [mkBotTimer (@mkChess (@Position scriptedEngine) 1 [(Script.f3, 0)]) 0] /\
  position (game (step (TimerFires 0) (step ResetClick replyPending))) = 2 /\
  moveHistory (step (TimerFires 0) (step ResetClick replyPending)) = ["undefined e5"].
Proof.
  split; [reflexivity|].
  destruct (reset_leaves_pending_reply
              replyPending
              (mkBotTimer (@mkChess (@Position scriptedEngine) 1 [(Script.f3, 0)]) 0)
              [] 0 Script.e5 Script.e5 2)
    as (_ & _ & Hg & Hm & _).
  - reflexivity.
  - reflexivity.
  - reflexivity.
  - split.
    + rewrite Hg. reflexivity.
    + rewrite Hm. reflexivity.
Defined.

Lemma selection_and_error_change_on_clicks_only_witness :
  selectedSquare (step (TimerFires 0) replyPending) = selectedSquare replyPending /\
  errorMessage (step (TimerFires 0) replyPending) = errorMessage replyPending.
Proof.
  apply (selection_and_error_change_on_clicks_only (TimerFires 0) replyPending).
  - intros cell. discriminate.
  - discriminate.
Defined.

Lemma materialScores_rearranged_witness :
  Permutation (List.concat rookAndPawn) (List.concat pawnAndRook) /\
  materialScores rookAndPawn = materialScores pawnAndRook.
Proof.
  assert (Hperm : Permutation (List.concat rookAndPawn) (List.concat pawnAndRook)).
  { cbn.
    apply perm_trans with
      (l' := [None; Some (mkPiece White Rook); Some (mkPiece Black Pawn); None]).
    - apply perm_swap.
    - apply perm_skip.
      apply perm_trans with
        (l' := [Some (mkPiece Black Pawn); Some (mkPiece White Rook); None]).
      + apply perm_swap.
      + apply perm_skip. apply perm_swap. }
  split; [exact Hperm|].
  apply (materialScores_rearranged rookAndPawn pawnAndRook Hperm).
Defined.

Lemma win_probability_is_nearest_percent_witness :
  pieceCount (@boardOf scriptedEngine (position (game scriptedStart))) <= 32 /\
  exists k,
    (0 <= k <= 100)%Z /\
    (2 * Z.abs (k * (39 + 39) - 100 * 39) <= 39 + 39)%Z /\
    PrimFloat.eqb (white (winProbability (calculateWinProbability scriptedStart)))
                  (JS.ofZ k) = true /\
    PrimFloat.eqb (black (winProbability (calculateWinProbability scriptedStart)))
                  (JS.ofZ (100 - k)) = true /\
    PrimFloat.eqb
      (PrimFloat.add (white (winProbability (calculateWinProbability scriptedStart)))
                     (black (winProbability (calculateWinProbability scriptedStart))))
      100%float = true /\
    pointDifference (calculateWinProbability scriptedStart) = (39 - 39)%Z.
Proof.
  split.
  - vm_compute. lia.
  - apply (win_probability_is_nearest_percent scriptedStart).
    + vm_compute. lia.
    + vm_compute. discriminate.
Defined.

Lemma cells_show_distinct_squares_witness :
  selectedSquare e2Selected = Some (squareName 52) /\
  (square (@renderSquare scriptedEngine scriptedMovesFrom e2Selected 12)
   = square (@renderSquare scriptedEngine scriptedMovesFrom e2Selected 52) -> 12 = 52) /\
  String.length (square (@renderSquare scriptedEngine scriptedMovesFrom e2Selected 12)) = 2 /\
  (selectedSquare e2Selected = Some (squareName 52) ->
   isSelected (@renderSquare scriptedEngine scriptedMovesFrom e2Selected 12)
   = (12 =? 52)%nat).
Proof.
  split; [reflexivity|].
  apply (@cells_show_distinct_squares scriptedEngine scriptedMovesFrom e2Selected 12 52); lia.
Defined.

Lemma highlighted_cells_witness :
  suggestedMove e2Selected = Some Script.f3 /\
  isSuggested (@renderSquare scriptedEngine scriptedMovesFrom e2Selected 53) = true /\
  isSuggested (@renderSquare scriptedEngine scriptedMovesFrom e2Selected 52) = false.
Proof.
  split; [reflexivity|].
  split.
  - destruct (@highlighted_cells scriptedEngine scriptedMovesFrom e2Selected 53) as (Hs & _);
      [lia|].
    rewrite (Hs Script.f3 53 45); try reflexivity; lia.
  - destruct (@highlighted_cells scriptedEngine scriptedMovesFrom e2Selected 52) as (Hs & _);
      [lia|].
    rewrite (Hs Script.f3 53 45); try reflexivity; lia.
Defined.

Lemma rank_formulas_agree_witness :
  rankEarlier 52 = rankOf 52 /\ 1 <= rankOf 52 <= 8 /\
  (52 < 56 -> rankOf (52 + 8) + 1 = rankOf 52).
Proof.
  apply (rank_formulas_agree 52). lia.
Defined.

Lemma shading_alternates_witness :
  (52 mod 8 < 7 -> shaded (52 + 1) = negb (shaded 52)) /\
  (52 < 56 -> shaded (52 + 8) = negb (shaded 52)).
Proof.
  apply (shading_alternates 52). lia.
Defined.

Lemma history_panel_omits_reply_witness :
  map historyRow (historyAfter Script.g4 ByPlayer ["1. f3 e5"])
  = [("1.", Some "f3"); ("1.", Some "g4")] /\
  map historyRow (historyAfter Script.Qh4 ByBot
                               (historyAfter Script.g4 ByPlayer ["1. f3 e5"]))
  = map historyRow (historyAfter Script.g4 ByPlayer ["1. f3 e5"]).
Proof.
  destruct (history_panel_omits_reply ["1. f3 e5"] Script.g4 Script.Qh4)
    as [Hplayer Hreply].
  - reflexivity.
  - discriminate.
  - split; [rewrite Hplayer; reflexivity | exact Hreply].
Defined.
